(** * RadioFM MCP bridge: a shallow embedding of [src/dist/index.js]

    The program is a small Express server.  Everything it computes is a
    function of two JSON documents: the body of the POST request and the
    body of the answer of the upstream search API.  The embedding therefore
    has three layers:

    - the JavaScript values the code handles (JSON documents plus
      [undefined]) with the handful of language operations the code applies
      to them (truthiness, property reads, [||], [?.], [??], template
      literals, [toUpperCase], [map], [join], [encodeURIComponent]);
    - completions: an expression either yields a value or throws;
    - the functions of the source, under their own names: [listTools],
      [callTool], the handler registered for [CallToolRequestSchema] and the
      [app.post("/mcp")] route.

    Conventions.  Strings are sequences of bytes holding the UTF-8 encoding
    of the text.  Numbers are integers.  [await] is sequencing: a rejected
    promise is a thrown exception.  [String.prototype.toUpperCase] and
    [axios.get] are parameters of the program.  Console output is left
    out, and so are the routes that do not take part in a tool call (the
    health check, the discovery documents, the opening of the streaming
    channel, which belongs to the SDK). *)

From Stdlib Require Import String Ascii List ZArith Bool Lia.
From Stdlib Require Import Numbers.DecimalString.
Import ListNotations.

Open Scope list_scope.
Open Scope string_scope.

(** ** Characters and text constants *)

Definition LF : ascii := "010"%char.
Definition nl : string := String LF EmptyString.
Definition dquote : string := String "034"%char EmptyString.

(** ** JavaScript values

    [JSON.parse] produces null, booleans, numbers, strings, arrays and plain
    objects; reading a property that is not there produces [undefined].
    [JNum n] stands for an integer-valued number (the decimal numeral of
    [n] is what [Number::toString] prints for it); an object is the list of
    its own properties in insertion order, each key bound once. *)

#[warnings="-register-all"]
Inductive JsVal : Type :=
| JUndefined
| JNull
| JBool (b : bool)
| JNum (n : Z)
| JStr (s : string)
| JArr (elems : list JsVal)
| JObj (props : list (string * JsVal)).

(** ** Thrown values and completions *)

Record Exn : Type := mkExn { exn_name : string; exn_message : string }.

Definition Error (msg : string) : Exn := mkExn "Error" msg.
Definition TypeError (msg : string) : Exn := mkExn "TypeError" msg.

Inductive Completion (A : Type) : Type :=
| Normal (a : A)
| Throw (e : Exn).

Arguments Normal {A} a.
Arguments Throw {A} e.

Definition bind {A B : Type} (c : Completion A) (k : A -> Completion B)
  : Completion B :=
  match c with
  | Normal a => k a
  | Throw e => Throw e
  end.

Notation "x <- c ;; k" := (bind c (fun x => k))
  (at level 61, c at next level, right associativity).

(** [xs.map(f)] for a callback that may throw: the elements are visited in
    order, the callback receives the element and its index, and the first
    exception ends the traversal. *)
Fixpoint mapi_from {A B : Type} (f : A -> nat -> Completion B)
         (i : nat) (xs : list A) : Completion (list B) :=
  match xs with
  | [] => Normal []
  | x :: rest =>
      y <- f x i ;;
      ys <- mapi_from f (S i) rest ;;
      Normal (y :: ys)
  end.

Definition mapi {A B : Type} (f : A -> nat -> Completion B) (xs : list A)
  : Completion (list B) := mapi_from f 0 xs.

(** ** Language operations *)

(** ToBoolean. *)
Definition truthy (v : JsVal) : bool :=
  match v with
  | JUndefined | JNull => false
  | JBool b => b
  | JNum n => negb (Z.eqb n 0)
  | JStr s => negb (String.eqb s "")
  | JArr _ | JObj _ => true
  end.

Definition nullish (v : JsVal) : bool :=
  match v with
  | JUndefined | JNull => true
  | _ => false
  end.

(** [a || b] and [a ?? b], with [b] already evaluated (used where [b] cannot
    throw). *)
Definition js_or (a b : JsVal) : JsVal := if truthy a then a else b.
Definition js_coalesce (a b : JsVal) : JsVal := if nullish a then b else a.

Fixpoint lookup (k : string) (props : list (string * JsVal)) : option JsVal :=
  match props with
  | [] => None
  | (k', v) :: rest => if String.eqb k k' then Some v else lookup k rest
  end.

Definition has_own (k : string) (props : list (string * JsVal)) : bool :=
  match lookup k props with Some _ => true | None => false end.

(** The value of an own property, [undefined] when the object has none of
    that name. *)
Definition prop (k : string) (props : list (string * JsVal)) : JsVal :=
  match lookup k props with Some x => x | None => JUndefined end.

(** Number of UTF-16 code units of a text given by its UTF-8 bytes: one per
    code point below U+10000 (lead bytes below 0xF0), two per code point
    above (lead bytes from 0xF0), none for continuation bytes. *)
Definition utf16_units (c : ascii) : nat :=
  let n := nat_of_ascii c in
  if Nat.ltb n 128 then 1
  else if Nat.ltb n 192 then 0
  else if Nat.ltb n 240 then 1
  else 2.

Fixpoint utf16_length (s : string) : nat :=
  match s with
  | EmptyString => 0
  | String c r => utf16_units c + utf16_length r
  end.

(** [v.k] for the data properties the program reads ([method], [id],
    [params], [arguments], [query], [data], [Data], [length], [type],
    [tools], [st_name], [p_name], [st_genre], [cat_name], [deeplink],
    [st_shorturl]): none of them is inherited from a prototype except
    [length] of arrays and strings.  Reading a property of [undefined] or
    [null] throws. *)
Definition Get (v : JsVal) (k : string) : Completion JsVal :=
  match v with
  | JUndefined =>
      Throw (TypeError ("Cannot read properties of undefined (reading '" ++ k ++ "')"))
  | JNull =>
      Throw (TypeError ("Cannot read properties of null (reading '" ++ k ++ "')"))
  | JObj props => Normal (prop k props)
  | JArr elems =>
      Normal (if String.eqb k "length" then JNum (Z.of_nat (List.length elems))
              else JUndefined)
  | JStr s =>
      Normal (if String.eqb k "length" then JNum (Z.of_nat (utf16_length s))
              else JUndefined)
  | JBool _ | JNum _ => Normal JUndefined
  end.

(** [v?.k]. *)
Definition GetOpt (v : JsVal) (k : string) : Completion JsVal :=
  if nullish v then Normal JUndefined else Get v k.

(** Number::toString on integers, which prints the decimal numeral up to
    10^21 in absolute value; the exponent notation the language switches
    to from there is not followed, nor are numbers with a fraction. *)
Definition NumberToString (n : Z) : string :=
  NilZero.string_of_int (Z.to_int n).

(** ToString, as applied by template literals and by
    [encodeURIComponent].  A plain object prints through
    [Object.prototype.toString] unless it carries a property [toString] of
    its own: a JSON value is never callable, the inherited [valueOf] returns
    the object itself, and the conversion throws.  An array prints through
    [join]: its elements separated by commas, [null] printing as nothing. *)
Fixpoint ToString (v : JsVal) : Completion string :=
  match v with
  | JUndefined => Normal "undefined"
  | JNull => Normal "null"
  | JBool true => Normal "true"
  | JBool false => Normal "false"
  | JNum n => Normal (NumberToString n)
  | JStr s => Normal s
  | JArr elems =>
      (fix join_elems (xs : list JsVal) : Completion string :=
         match xs with
         | [] => Normal ""
         | x :: rest =>
             s <- (if nullish x then Normal "" else ToString x) ;;
             match rest with
             | [] => Normal s
             | _ :: _ => r <- join_elems rest ;; Normal (s ++ "," ++ r)
             end
         end) elems
  | JObj props =>
      if has_own "toString" props
      then Throw (TypeError "Cannot convert object to primitive value")
      else Normal "[object Object]"
  end.

(** [xs.join(sep)] on an array of strings. *)
Definition join (sep : string) (xs : list string) : string :=
  String.concat sep xs.

(** [encodeURIComponent] on a text: the unreserved characters are kept,
    every other byte of the UTF-8 encoding becomes [%XX].  The function of
    the language throws a URIError on a lone surrogate; text held as UTF-8
    has none, so that path has no counterpart here. *)
Definition unreserved (c : ascii) : bool :=
  let n := nat_of_ascii c in
  (Nat.leb 65 n && Nat.leb n 90) || (Nat.leb 97 n && Nat.leb n 122)
  || (Nat.leb 48 n && Nat.leb n 57)
  || existsb (Nat.eqb n) [45; 95; 46; 33; 126; 42; 39; 40; 41].

Definition hex_digit (n : nat) : ascii :=
  ascii_of_nat (if Nat.ltb n 10 then 48 + n else 55 + n).

Definition percent (c : ascii) : string :=
  let n := nat_of_ascii c in
  String "%" (String (hex_digit (n / 16)) (String (hex_digit (n mod 16)) "")).

Fixpoint encodeURIComponent (s : string) : string :=
  match s with
  | EmptyString => ""
  | String c r =>
      (if unreserved c then String c "" else percent c) ++ encodeURIComponent r
  end.

(** [v.toUpperCase()]: only a string has the method. *)
Definition call_toUpperCase (toUpperCase : string -> string) (v : JsVal)
  : Completion string :=
  match v with
  | JStr s => Normal (toUpperCase s)
  | JUndefined =>
      Throw (TypeError "Cannot read properties of undefined (reading 'toUpperCase')")
  | JNull =>
      Throw (TypeError "Cannot read properties of null (reading 'toUpperCase')")
  | _ => Throw (TypeError "group.type.toUpperCase is not a function")
  end.

(** [v.map(f)] on a value that is not [undefined] or [null]: only an array
    has the method (a property [map] of a parsed object is not callable).
    [callee] is the text of the callee in the message of the error. *)
Definition call_map {B : Type} (callee : string) (v : JsVal)
           (f : JsVal -> nat -> Completion B) : Completion (list B) :=
  match v with
  | JArr elems => mapi f elems
  | _ => Throw (TypeError (callee ++ " is not a function"))
  end.

(** [a || b] where [b] is an expression that may throw and is evaluated only
    when [a] is falsy. *)
Definition or_else (a : JsVal) (b : Completion JsVal) : Completion JsVal :=
  if truthy a then Normal a else b.

(** ** The program *)

Definition RADIOFM_API : string := "https://devappradiofm.radiofm.co/rfm/api".

(** The object [{ content: [{ type: "text", text }] }]. *)
Definition tool_result (text : string) : JsVal :=
  JObj [("content", JArr [JObj [("type", JStr "text"); ("text", JStr text)]])].

(** [listTools], lines 16-33. *)
Definition listTools : JsVal :=
  JObj [("tools", JArr [
    JObj [("name", JStr "search_radio_stations");
          ("description",
           JStr "Search for radio stations and podcasts on RadioFM by name, language, country, or genre.");
          ("inputSchema",
           JObj [("type", JStr "object");
                 ("properties",
                  JObj [("query",
                         JObj [("type", JStr "string");
                               ("description",
                                JStr "Search term (e.g., 'BBC', 'India', 'Hindi', 'Jazz', 'News')")])]);
                 ("required", JArr [JStr "query"])])]])].

(** The address of the search, line 37, for a query already converted to a
    string. *)
Definition search_url (q : string) : string :=
  RADIOFM_API ++ "/new_combo_search.php?srch=" ++ encodeURIComponent q.

(** [data.data?.Data] and [data.data?.Data ?? []], line 38. *)
Definition data_Data (data : JsVal) : Completion JsVal :=
  d <- Get data "data" ;;
  GetOpt d "Data".

Definition results_of (data : JsVal) : Completion JsVal :=
  D <- data_Data data ;;
  Normal (js_coalesce D (JArr [])).

(** The callback of the inner [map], lines 53-58. *)
Definition format_item (item : JsVal) (i : nat) : Completion string :=
  st_name <- Get item "st_name" ;;
  name <- or_else st_name (Get item "p_name") ;;
  st_genre <- Get item "st_genre" ;;
  genre <- or_else st_genre (Get item "cat_name") ;;
  deeplink <- Get item "deeplink" ;;
  link <- or_else deeplink
            (st_shorturl <- Get item "st_shorturl" ;;
             s <- ToString st_shorturl ;;
             Normal (JStr ("https://appradiofm.com/radioplay/" ++ s))) ;;
  n <- ToString name ;;
  g <- ToString genre ;;
  l <- ToString link ;;
  Normal (NumberToString (Z.of_nat i + 1) ++ ". " ++ n ++ " (" ++ g ++ ")"
          ++ nl ++ "▶ " ++ l).

(** What [res] holds when the handler is done: the status (200 unless
    [res.status] was called), the [Content-Type] header and the object
    given to [res.json].  Serialising drops the properties whose value is
    [undefined]. *)
Record Response : Type := mkResponse {
  status : Z;
  content_type : string;
  payload : JsVal
}.

Definition res_json (st : Z) (body : JsVal) : Response :=
  mkResponse st "application/json" body.

(** How a run of the handler ends: it has answered, or an exception left
    it unanswered. *)
Inductive Outcome : Type :=
| Responded (r : Response)
| Unhandled (e : Exn).

Definition rpc_result (id result : JsVal) : JsVal :=
  JObj [("jsonrpc", JStr "2.0"); ("id", id); ("result", result)].

Definition rpc_error (id : JsVal) (code : Z) (message : string) : JsVal :=
  JObj [("jsonrpc", JStr "2.0"); ("id", id);
        ("error", JObj [("code", JNum code); ("message", JStr message)])].

Definition initialize_result : JsVal :=
  JObj [("protocolVersion", JStr "2025-06-18");
        ("capabilities", JObj [("tools", JObj [])]);
        ("serverInfo", JObj [("name", JStr "radiofm-mcp-server");
                             ("version", JStr "1.3.0")])].

(** [err.message || "Internal error"]. *)
Definition message_of (err : Exn) : string :=
  if String.eqb (exn_message err) "" then "Internal error"
  else exn_message err.

(** [method === "..."]. *)
Definition is_method (method : JsVal) (name : string) : bool :=
  match method with
  | JStr s => String.eqb s name
  | _ => false
  end.

Section Bridge.

(** [String.prototype.toUpperCase], whose Unicode case tables are not
    part of the program. *)
Variable toUpperCase : string -> string.

(** [axios.get(url)], awaited: the upstream either answers with a parsed
    body or the call rejects with an error. *)
Variable axios_get : string -> Completion JsVal.

(** The callback of the outer [map], lines 50-61. *)
Definition format_group (group : JsVal) (_ : nat) : Completion string :=
  t <- Get group "type" ;;
  type <- call_toUpperCase toUpperCase t ;;
  data <- Get group "data" ;;
  entries <- call_map "(group.data || []).map" (js_or data (JArr []))
             format_item ;;
  let list := join nl entries in
  Normal (nl ++ "🎧 " ++ type ++ nl ++ list).

(** [results.map(...).join("\n")], the value of [formatted], lines 49-62. *)
Definition format_results (results : JsVal) : Completion string :=
  blocks <- call_map "results.map" results format_group ;;
  Normal (join nl blocks).

(** [callTool], lines 34-64. *)
Definition callTool (query : JsVal) : Completion JsVal :=
  if negb (truthy query) then Throw (Error "Missing query term.")
  else
    q <- ToString query ;;
    data <- axios_get (search_url q) ;;
    results <- results_of data ;;
    len <- Get results "length" ;;
    if negb (truthy len) then
      q <- ToString query ;;
      Normal (tool_result
                ("🔍 No results found for " ++ dquote ++ q ++ dquote
                 ++ ". Try different station names, countries, or genres."))
    else
      formatted <- format_results results ;;
      q <- ToString query ;;
      Normal (tool_result
                ("🔍 Results for " ++ dquote ++ q ++ dquote ++ ":" ++ nl
                 ++ formatted)).

(** The handler registered for [CallToolRequestSchema], lines 67-70. *)
Definition call_tool_handler (req : JsVal) : Completion JsVal :=
  params <- Get req "params" ;;
  arguments <- Get params "arguments" ;;
  query <- GetOpt arguments "query" ;;
  callTool query.

(** *** The route [app.post("/mcp")], lines 77-116 *)

(** The [try] block, lines 82-106. *)
Definition post_mcp_try (method id params : JsVal) : Completion Response :=
  if is_method method "initialize" then
    Normal (res_json 200 (rpc_result id initialize_result))
  else if is_method method "tools/list" then
    let tools := listTools in
    tools_tools <- Get tools "tools" ;;
    Normal (res_json 200 (rpc_result id (JObj [("tools", tools_tools)])))
  else if is_method method "tools/call" then
    arguments <- GetOpt params "arguments" ;;
    query <- GetOpt arguments "query" ;;
    result <- callTool query ;;
    Normal (res_json 200 (rpc_result id result))
  else
    m <- ToString method ;;
    Normal (res_json 400 (rpc_error id (-32601) ("Unknown method: " ++ m))).

(** The [catch] block, lines 108-115. *)
Definition post_mcp_catch (id : JsVal) (err : Exn) : Response :=
  res_json 500 (rpc_error id (-32000) (message_of err)).

(** The whole handler; the destructuring of [req.body] on line 78 stands
    before the [try]. *)
Definition post_mcp (body : JsVal) : Outcome :=
  match (method <- Get body "method" ;;
         id <- Get body "id" ;;
         params <- Get body "params" ;;
         Normal (method, id, params)) with
  | Throw e => Unhandled e
  | Normal (method, id, params) =>
      match post_mcp_try method id params with
      | Normal r => Responded r
      | Throw err => Responded (post_mcp_catch id err)
      end
  end.

End Bridge.

(** ** Vocabulary of the statements *)

(** Upper-casing of ASCII letters; on ASCII text it is what
    [String.prototype.toUpperCase] computes.  It instantiates the
    [toUpperCase] of the program in the concrete runs below. *)
Definition upper_ascii (c : ascii) : ascii :=
  let n := nat_of_ascii c in
  if Nat.leb 97 n && Nat.leb n 122 then ascii_of_nat (n - 32) else c.

Fixpoint toUpperCase_ascii (s : string) : string :=
  match s with
  | EmptyString => ""
  | String c r => String (upper_ascii c) (toUpperCase_ascii r)
  end.

(** An upstream that answers every search with the same body, and one that
    is out of reach. *)
Definition upstream_answers (body : JsVal) : string -> Completion JsVal :=
  fun _ => Normal body.

Definition upstream_fails (message : string) : string -> Completion JsVal :=
  fun _ => Throw (mkExn "AxiosError" message).

(** The text a value prints as when its conversion does not throw. *)
Definition show (v : JsVal) : string :=
  match ToString v with
  | Normal s => s
  | Throw _ => ""
  end.

Definition primitive (v : JsVal) : bool :=
  match v with
  | JArr _ | JObj _ => false
  | _ => true
  end.

(** *** The shapes of the data model

    An item is an object whose six fields of interest are absent or
    primitive (whatever else it carries); a group is an object with a
    string [type] and a [data] that is absent, falsy or an array of
    items. *)
Definition item_fields : list string :=
  ["st_name"; "p_name"; "st_genre"; "cat_name"; "deeplink"; "st_shorturl"].

Definition is_item (v : JsVal) : bool :=
  match v with
  | JObj props => forallb (fun k => primitive (prop k props)) item_fields
  | _ => false
  end.

Definition is_group (v : JsVal) : bool :=
  match v with
  | JObj props =>
      match prop "type" props with
      | JStr _ =>
          match prop "data" props with
          | JArr items => forallb is_item items
          | d => negb (truthy d)
          end
      | _ => false
      end
  | _ => false
  end.

(** The label of a group, its [type], and its items, [group.data || []]. *)
Definition group_label (group : JsVal) : string :=
  match group with
  | JObj props => show (prop "type" props)
  | _ => ""
  end.

Definition group_items (group : JsVal) : list JsVal :=
  match group with
  | JObj props =>
      match js_or (prop "data" props) (JArr []) with
      | JArr items => items
      | _ => []
      end
  | _ => []
  end.

(** *** The fallbacks of an item, in the words of the specification *)




Definition radioplay (shorturl : string) : string :=
  "https://appradiofm.com/radioplay/" ++ shorturl.


(** One numbered entry, as the template on line 57 lays it out. *)
Definition entry (number : nat) (name genre link : string) : string :=
  NumberToString (Z.of_nat number) ++ ". " ++ name ++ " (" ++ genre ++ ")"
  ++ nl ++ "▶ " ++ link.



(** *** The expected text *)

(** The name, category and link an item of the data model is shown
    with. *)
Definition item_name (item : JsVal) : string :=
  match item with
  | JObj props => show (js_or (prop "st_name" props) (prop "p_name" props))
  | _ => ""
  end.

Definition item_genre (item : JsVal) : string :=
  match item with
  | JObj props => show (js_or (prop "st_genre" props) (prop "cat_name" props))
  | _ => ""
  end.

Definition item_link (item : JsVal) : string :=
  match item with
  | JObj props =>
      show (js_or (prop "deeplink" props)
                  (JStr (radioplay (show (prop "st_shorturl" props)))))
  | _ => ""
  end.

(** The entries of a list of items, in order, numbered [k], [k+1], ... *)
Definition entry_of (number : nat) (item : JsVal) : string :=
  entry number (item_name item) (item_genre item) (item_link item).

Fixpoint numbered_entries (k : nat) (items : list JsVal) : list string :=
  match items with
  | [] => []
  | item :: rest => entry_of k item :: numbered_entries (S k) rest
  end.

(** The block of a group: a blank line, the header line with the
    upper-cased type, and the entries of the group numbered from 1. *)
Definition header_line (toUpperCase : string -> string) (group : JsVal)
  : string := "🎧 " ++ toUpperCase (group_label group).

Definition group_block (toUpperCase : string -> string) (group : JsVal)
  : string :=
  nl ++ header_line toUpperCase group ++ nl
  ++ join nl (numbered_entries 1 (group_items group)).

(** The whole text: the results line, then the blocks of the groups in
    order. *)
Definition results_line (q : string) : string :=
  "🔍 Results for " ++ dquote ++ q ++ dquote ++ ":".

Definition results_text (toUpperCase : string -> string) (q : string)
           (groups : list JsVal) : string :=
  results_line q ++ nl ++ join nl (map (group_block toUpperCase) groups).

(** *** The text, line by line *)

(** The lines of a text: what stands between its line feeds. *)
Fixpoint lines (s : string) : list string :=
  match s with
  | EmptyString => [""]
  | String c r =>
      if Ascii.eqb c LF then "" :: lines r
      else match lines r with
           | l :: ls => String c l :: ls
           | [] => [String c ""]
           end
  end.

Fixpoint single_line (s : string) : bool :=
  match s with
  | EmptyString => true
  | String c r => negb (Ascii.eqb c LF) && single_line r
  end.

(** A header line starts with the headphones and a space. *)
Definition is_header_line (line : string) : bool := prefix "🎧 " line.

(** The two lines of the item numbered [k]; the lines of a list of items
    numbered from [k]. *)
Definition item_lines (k : nat) (item : JsVal) : list string :=
  [NumberToString (Z.of_nat k) ++ ". " ++ item_name item
   ++ " (" ++ item_genre item ++ ")";
   "▶ " ++ item_link item].

Fixpoint numbered_lines (k : nat) (items : list JsVal) : list string :=
  match items with
  | [] => []
  | item :: rest => (item_lines k item ++ numbered_lines (S k) rest)%list
  end.

(** The lines of a group: a blank line, the header line, and the lines of
    its items numbered from 1 (one empty line when it has no item). *)
Definition group_lines (toUpperCase : string -> string) (group : JsVal)
  : list string :=
  "" :: header_line toUpperCase group
     :: match group_items group with
        | [] => [""]
        | items => numbered_lines 1 items
        end.

Definition text_lines (toUpperCase : string -> string) (q : string)
           (groups : list JsVal) : list string :=
  results_line q :: flat_map (group_lines toUpperCase) groups.

(** Items and groups whose texts hold no line feed. *)
Definition plain_item (item : JsVal) : bool :=
  single_line (item_name item) && single_line (item_genre item)
  && single_line (item_link item).

Definition plain_group (toUpperCase : string -> string) (group : JsVal)
  : bool :=
  single_line (toUpperCase (group_label group))
  && forallb plain_item (group_items group).

(** *** Requests *)

(** The query of a call, [params?.arguments?.query]. *)
Definition params_query (params : JsVal) : Completion JsVal :=
  arguments <- GetOpt params "arguments" ;;
  GetOpt arguments "query".

(** A JSON-RPC request with the given method, id and params, and its
    properties. *)
Definition rpc_props (method : string) (id params : JsVal)
  : list (string * JsVal) :=
  [("jsonrpc", JStr "2.0"); ("method", JStr method); ("id", id);
   ("params", params)].

Definition rpc_request (method : string) (id params : JsVal) : JsVal :=
  JObj (rpc_props method id params).

(** ** Sample data for the concrete runs *)

(** Two groups: two stations, the second with a deep link, and one
    podcast. *)
Definition bbc_groups : list JsVal :=
  [JObj [("type", JStr "station");
         ("data",
          JArr [JObj [("st_name", JStr "BBC Radio 1"); ("st_genre", JStr "Pop");
                      ("st_shorturl", JStr "bbc1")];
                JObj [("st_name", JStr "BBC World Service");
                      ("st_genre", JStr "News");
                      ("deeplink", JStr "https://appradiofm.com/world")]])];
   JObj [("type", JStr "podcast");
         ("data",
          JArr [JObj [("p_name", JStr "Jazz Hour"); ("cat_name", JStr "Music");
                      ("st_shorturl", JStr "jazzhour")]])]].

Definition bbc_body : JsVal :=
  JObj [("data", JObj [("Data", JArr bbc_groups)])].

(** Groups the data model allows: one without [data], one whose only item
    has no field at all. *)
Definition bare_groups : list JsVal :=
  [JObj [("type", JStr "station")];
   JObj [("type", JStr "podcast"); ("data", JArr [JObj []])]].

(** One group of one station whose name holds a line feed followed by
    the mark of a header. *)
Definition line_feed_groups : list JsVal :=
  [JObj [("type", JStr "station");
         ("data",
          JArr [JObj [("st_name", JStr ("Radio One" ++ nl ++ "🎧 PODCAST"));
                      ("st_genre", JStr "Pop");
                      ("st_shorturl", JStr "one")]])]].

Definition line_feed_body : JsVal :=
  JObj [("data", JObj [("Data", JArr line_feed_groups)])].

(** An answer without [Data]. *)
Definition empty_body : JsVal :=
  JObj [("data", JObj [("ErrorCode", JNum 0)])].


(** Calls of a tool by name, and of no tool at all. *)
Definition call_params (name : string) (query : string) : JsVal :=
  JObj [("name", JStr name); ("arguments", JObj [("query", JStr query)])].

Definition nameless_params (query : string) : JsVal :=
  JObj [("arguments", JObj [("query", JStr query)])].

(** A call that leaves the query out. *)
Definition queryless_params : JsVal :=
  JObj [("name", JStr "search_radio_stations"); ("arguments", JObj [])].

(** * The rest of the program *)

(** ** The GET routes of [src/dist/index.js]

    What the handlers read of a request: [req.protocol], [req.get("host")],
    [req.get("user-agent")] and [req.originalUrl].  A header that was not
    sent reads as [undefined].  The value of a header holds one character
    per byte, as Node decodes it. *)
Record Request : Type := mkRequest {
  protocol : string;
  host : option string;
  user_agent : option string;
  originalUrl : string
}.

(** A header inside a template literal. *)
Definition header_text (h : option string) : string :=
  match h with
  | Some s => s
  | None => "undefined"
  end.

(** [String.prototype.toLowerCase] on such a value: the letters of ASCII,
    and the capital letters of Latin-1 (0xC0 to 0xDE, the multiplication
    sign 0xD7 apart). *)
Definition lower_latin1 (c : ascii) : ascii :=
  let n := nat_of_ascii c in
  if (Nat.leb 65 n && Nat.leb n 90)
     || (Nat.leb 192 n && Nat.leb n 222 && negb (Nat.eqb n 215))
  then ascii_of_nat (n + 32)
  else c.

Fixpoint toLowerCase (s : string) : string :=
  match s with
  | EmptyString => ""
  | String c r => String (lower_latin1 c) (toLowerCase r)
  end.

(** [s.includes(sub)]. *)
Fixpoint includes (s sub : string) : bool :=
  prefix sub s
  || match s with
     | EmptyString => false
     | String _ r => includes r sub
     end.

(** The health check, lines 73-75. *)
Definition health : JsVal :=
  JObj [("status", JStr "ok");
        ("message", JStr "RadioFM MCP server running");
        ("endpoint", JStr "/mcp")].

(** The user agent as line 120 reads it:
    [req.get("user-agent")?.toLowerCase() || ""]. *)
Definition ua_of (req : Request) : string :=
  match user_agent req with
  | Some s => toLowerCase s
  | None => ""
  end.

(** Lines 121 and 122. *)
Definition isSafari (ua : string) : bool :=
  includes ua "safari" && negb (includes ua "chrome")
  && negb (includes ua "android").

Definition isMobile (ua : string) : bool :=
  includes ua "iphone" || includes ua "ipad" || includes ua "ipod"
  || includes ua "android".

(** The message of lines 125-130. *)
Definition sse_fallback : JsVal :=
  JObj [("jsonrpc", JStr "2.0");
        ("result",
         JObj [("message",
                JStr "SSE not supported on this device. Use POST /mcp for tool calls.")])].

(** The address of line 133. *)
Definition sse_endpoint (req : Request) : string :=
  protocol req ++ "://" ++ header_text (host req) ++ originalUrl req.

(** How the route [app.get("/mcp")] ends: with the fallback message, with
    the channel handed to the SDK under its address, or with the answer of
    the [catch]. *)
Inductive SseOutcome : Type :=
| SseFallback (r : Response)
| SseOpened (endpoint : string)
| SseFailed (r : Response).

Section Streaming.

(** [new SSEServerTransport(endpoint, res)] followed by
    [await server.connect(transport)], both of the SDK: the channel is
    opened, or an exception is thrown before anything is written. *)
Variable connect : string -> Completion unit.

(** The route [app.get("/mcp")], lines 118-141. *)
Definition get_mcp (req : Request) : SseOutcome :=
  let ua := ua_of req in
  if isSafari ua || isMobile ua then SseFallback (res_json 200 sse_fallback)
  else
    let endpoint := sse_endpoint req in
    match connect endpoint with
    | Normal _ => SseOpened endpoint
    | Throw e =>
        SseFailed (res_json 500 (JObj [("error", JStr (exn_message e))]))
    end.

End Streaming.

(** The discovery documents, lines 143-167. *)
Definition base (req : Request) : string :=
  protocol req ++ "://" ++ header_text (host req).

Definition openid_configuration (req : Request) : JsVal :=
  JObj [("issuer", JStr (base req));
        ("authorization_endpoint", JStr (base req ++ "/authorize"));
        ("token_endpoint", JStr (base req ++ "/token"));
        ("mcp_endpoint", JStr (base req ++ "/mcp"))].

Definition oauth_authorization_server (req : Request) : JsVal :=
  JObj [("issuer", JStr (base req));
        ("authorization_endpoint", JStr (base req ++ "/authorize"));
        ("token_endpoint", JStr (base req ++ "/token"));
        ("mcp_endpoint", JStr (base req ++ "/mcp"))].

Definition openid_configuration_mcp (req : Request) : JsVal :=
  JObj [("mcp_endpoint", JStr (base req ++ "/mcp"));
        ("capabilities", JObj [("tools", JBool true)])].

(** ** The earlier variant of the server, [src/unnamed/part_000]

    It registers its handlers inline, has no [try] around the POST route
    and answers only [initialize] there. *)
Module Legacy.

(** The tool list, lines 26-38. *)
Definition listTools : JsVal :=
  JObj [("tools", JArr [
    JObj [("name", JStr "search_radio_stations");
          ("description", JStr "Search RadioFM stations and podcasts.");
          ("inputSchema",
           JObj [("type", JStr "object");
                 ("properties",
                  JObj [("query",
                         JObj [("type", JStr "string");
                               ("description", JStr "Search term")])]);
                 ("required", JArr [JStr "query"])])]])].

Section Handlers.

Variable toUpperCase : string -> string.
Variable axios_get : string -> Completion JsVal.

(** The handler registered for [CallToolRequestSchema], lines 41-73; the
    two callbacks of lines 55-67 are those of [format_group] and
    [format_item]. *)
Definition call_tool_handler (req : JsVal) : Completion JsVal :=
  params <- Get req "params" ;;
  arguments <- Get params "arguments" ;;
  query <- GetOpt arguments "query" ;;
  if negb (truthy query) then Throw (Error "Missing query term")
  else
    q <- ToString query ;;
    data <- axios_get (search_url q) ;;
    results <- results_of data ;;
    len <- Get results "length" ;;
    if negb (truthy len) then
      q <- ToString query ;;
      Normal (tool_result ("No results for " ++ dquote ++ q ++ dquote ++ "."))
    else
      formatted <- format_results toUpperCase results ;;
      q <- ToString query ;;
      Normal (tool_result
                ("🔍 Results for " ++ dquote ++ q ++ dquote ++ ":" ++ nl
                 ++ formatted)).

End Handlers.

(** The result of [initialize], lines 99-127. *)
Definition initialize_result : JsVal :=
  JObj [("protocolVersion", JStr "2024-11-05");
        ("capabilities", JObj [("tools", JObj [("list", JBool true)])]);
        ("serverInfo",
         JObj [("name", JStr "radiofm-mcp-server");
               ("version", JStr "1.0.0");
               ("description",
                JStr "Search live radio, podcasts, and music from RadioFM")]);
        ("tools", JArr [
           JObj [("name", JStr "search_radio_stations");
                 ("description", JStr "Search RadioFM stations and podcasts.");
                 ("inputSchema",
                  JObj [("type", JStr "object");
                        ("properties",
                         JObj [("query",
                                JObj [("type", JStr "string");
                                      ("description",
                                       JStr "Search term for a station or podcast")])]);
                        ("required", JArr [JStr "query"])])]])].

(** The route [app.post("/mcp")], lines 87-137.  [clientProtocol] is
    computed on line 93 and not used. *)
Definition post_mcp (body : JsVal) : Outcome :=
  match (method <- Get body "method" ;;
         id <- Get body "id" ;;
         params <- Get body "params" ;;
         protocolVersion <- GetOpt params "protocolVersion" ;;
         let clientProtocol := js_or protocolVersion (JStr "1.0.0") in
         if is_method method "initialize" then
           Normal (res_json 200 (rpc_result id initialize_result))
         else
           Normal (res_json 200
                     (rpc_result id (JObj [("ok", JBool true)])))) with
  | Normal r => Responded r
  | Throw e => Unhandled e
  end.

Section Streaming.

Variable connect : string -> Completion unit.

(** The route [app.get("/mcp")], lines 76-84: no look at the user agent,
    no [catch]. *)
Definition get_mcp (req : Request) : Completion string :=
  let endpoint := sse_endpoint req in
  _ <- connect endpoint ;;
  Normal endpoint.

End Streaming.

End Legacy.

(** ** Vocabulary of the further statements *)

(** The characters of a text all satisfy a test. *)
Fixpoint all_chars (p : ascii -> bool) (s : string) : bool :=
  match s with
  | EmptyString => true
  | String c r => p c && all_chars p r
  end.

(** The characters [encodeURIComponent] can produce: the unreserved ones
    (the digits of the escapes are among them) and the percent sign. *)
Definition uri_safe (c : ascii) : bool := unreserved c || Ascii.eqb c "%".

(** The sentences of the two variants for an empty result. *)
Definition no_results_text (q : string) : string :=
  "🔍 No results found for " ++ dquote ++ q ++ dquote
  ++ ". Try different station names, countries, or genres.".

Definition legacy_no_results_text (q : string) : string :=
  "No results for " ++ dquote ++ q ++ dquote ++ ".".

(** A JSON-RPC answer as the POST route writes it: a result under status
    200, the error -32601 under status 400, or the error -32000 under
    status 500. *)
Definition is_answer (id : JsVal) (r : Response) : Prop :=
  content_type r = "application/json"
  /\ ((exists result, status r = 200%Z /\ payload r = rpc_result id result)
      \/ (exists message,
             status r = 400%Z /\ payload r = rpc_error id (-32601) message)
      \/ (exists message,
             status r = 500%Z /\ payload r = rpc_error id (-32000) message)).

(** Two runs of the tool handler end alike up to the two texts in which
    the variants differ: the sentence for an empty result and the message
    for a missing query. *)
Definition agree_up_to_messages (current legacy : Completion JsVal) : Prop :=
  match current, legacy with
  | Normal a, Normal b =>
      a = b
      \/ exists q, a = tool_result (no_results_text q)
                   /\ b = tool_result (legacy_no_results_text q)
  | Throw e1, Throw e2 =>
      e1 = e2
      \/ (e1 = Error "Missing query term." /\ e2 = Error "Missing query term")
  | _, _ => False
  end.

(** The shape a group must have for the formatter to get past it. *)
Definition group_shape (group : JsVal) : Prop :=
  exists props label,
    group = JObj props
    /\ prop "type" props = JStr label
    /\ (truthy (prop "data" props) = false
        \/ exists items, prop "data" props = JArr items).

(** The characters that delimit the parts of an address. *)
Definition uri_delimiters : list ascii :=
  [" "; "&"; "="; "#"; "?"; "/"; "+"; ":"; "034"]%char.

(** An upstream that knows one address only. *)
Definition upstream_only (url : string) (body : JsVal)
  : string -> Completion JsVal :=
  fun u => if String.eqb u url then Normal body
           else Throw (mkExn "AxiosError" "Request failed with status code 404").

(** [headed_block up group block]: the block starts with a blank line and
    the header line of the group, its [type] upper-cased. *)
Definition headed_block (toUpperCase : string -> string)
           (group : JsVal) (block : string) : Prop :=
  exists label entries,
    Get group "type" = Normal (JStr label)
    /\ block = nl ++ "🎧 " ++ toUpperCase label ++ nl ++ entries.


Definition chrome_request : Request :=
  mkRequest "https" (Some "mcp.example.org")
    (Some "Mozilla/5.0 (X11; Linux x86_64) AppleWebKit/537.36 (KHTML, like Gecko) Chrome/126.0.0.0 Safari/537.36")
    "/mcp".

(** * Properties *)

(** ** Language operations *)

Lemma GetOpt_returns (v : JsVal) (k : string) :
  exists x, GetOpt v k = Normal x.
Proof.
  unfold GetOpt; destruct v; simpl; eauto.
Qed.

Lemma ToString_primitive (v : JsVal) :
  primitive v = true -> ToString v = Normal (show v).
Proof.
  destruct v as [| |[|]| | | |]; simpl; intros H;
    try reflexivity; discriminate H.
Qed.

Lemma js_or_primitive (a b : JsVal) :
  primitive a = true -> primitive b = true -> primitive (js_or a b) = true.
Proof.
  intros Ha Hb; unfold js_or; destruct (truthy a); assumption.
Qed.

Lemma or_else_Normal (a b : JsVal) : or_else a (Normal b) = Normal (js_or a b).
Proof.
  unfold or_else, js_or; destruct (truthy a); reflexivity.
Qed.

Lemma truthy_JStr (q : string) : q <> "" -> truthy (JStr q) = true.
Proof.
  intros Hq; simpl; destruct (String.eqb_spec q ""); [contradiction|reflexivity].
Qed.

Lemma append_assoc (a b c : string) : (a ++ b) ++ c = a ++ b ++ c.
Proof.
  induction a as [|x a IH]; simpl; [reflexivity | now rewrite IH].
Qed.

(** ** Fields of an item *)






(** ** The formatter *)

(** On the items of the data model the callback returns the expected
    entry; the position of the item decides its number and nothing else. *)
Lemma format_item_entry (item : JsVal) (i : nat) :
  is_item item = true -> format_item item i = Normal (entry_of (S i) item).
Proof.
  destruct item as [| | | | | |props]; simpl; try discriminate.
  rewrite !andb_true_iff; intros (H1 & H2 & H3 & H4 & H5 & H6 & _).
  unfold format_item.
  repeat (cbn [bind Get];
          first [ rewrite or_else_Normal
                | rewrite ToString_primitive
                    by auto using js_or_primitive ]).
  cbn [bind]; unfold entry_of, entry, item_name, item_genre, item_link.
  rewrite Nat2Z.inj_succ, <- Z.add_1_r; reflexivity.
Qed.




Lemma entries_numbered (items : list JsVal) :
  forallb is_item items = true ->
  forall i,
    mapi_from format_item i items = Normal (numbered_entries (S i) items).
Proof.
  induction items as [|item items IH]; intros Hitems i; [reflexivity|].
  cbn [forallb] in Hitems; apply andb_true_iff in Hitems as [Hitem Hitems].
  cbn [mapi_from numbered_entries].
  rewrite (format_item_entry item i Hitem); cbn [bind].
  rewrite (IH Hitems (S i)); reflexivity.
Qed.

(** The numbering, position by position. *)
Lemma numbered_entries_length (k : nat) (items : list JsVal) :
  List.length (numbered_entries k items) = List.length items.
Proof.
  revert k; induction items; intros k; simpl; auto.
Qed.

Lemma numbered_entries_nth (items : list JsVal) :
  forall k j item,
    nth_error items j = Some item ->
    nth_error (numbered_entries k items) j = Some (entry_of (k + j) item).
Proof.
  induction items as [|item0 items IH]; intros k j item Hj.
  - destruct j; discriminate.
  - destruct j as [|j]; simpl in *.
    + injection Hj as <-; rewrite Nat.add_0_r; reflexivity.
    + rewrite (IH (S k) j item Hj).
      replace (k + S j) with (S k + j) by lia; reflexivity.
Qed.

Lemma is_group_items (group : JsVal) :
  is_group group = true ->
  exists props label,
    group = JObj props
    /\ prop "type" props = JStr label
    /\ js_or (prop "data" props) (JArr []) = JArr (group_items group)
    /\ forallb is_item (group_items group) = true.
Proof.
  destruct group as [| | | | | |props]; simpl; try discriminate.
  destruct (prop "type" props) as [| | | |label| |] eqn:Htype;
    try discriminate.
  intros Hdata; exists props, label; split; [reflexivity|split; [auto|]].
  unfold js_or.
  destruct (prop "data" props) as [| |b|n|s|items|ps]; simpl in *;
    try (apply negb_true_iff in Hdata; rewrite Hdata); auto; discriminate.
Qed.

(** ** Lines *)

Lemma lines_nonempty (s : string) : lines s <> [].
Proof.
  destruct s as [|c s]; simpl; [discriminate|].
  destruct (Ascii.eqb c LF); [discriminate|].
  destruct (lines s); discriminate.
Qed.

Lemma lines_app_LF (a b : string) :
  lines (a ++ String LF b) = (lines a ++ lines b)%list.
Proof.
  induction a as [|c a IH]; simpl; [reflexivity|].
  destruct (Ascii.eqb c LF); rewrite IH; [reflexivity|].
  destruct (lines a) eqn:Ha; [|reflexivity].
  now apply lines_nonempty in Ha.
Qed.

Lemma lines_single (s : string) : single_line s = true -> lines s = [s].
Proof.
  induction s as [|c s IH]; simpl; [reflexivity|].
  destruct (Ascii.eqb c LF); simpl; [discriminate|].
  intros H; rewrite (IH H); reflexivity.
Qed.

Lemma single_line_app (a b : string) :
  single_line (a ++ b) = single_line a && single_line b.
Proof.
  induction a as [|c a IH]; simpl; [reflexivity|].
  rewrite IH, andb_assoc; reflexivity.
Qed.

Lemma lines_join (xs : list string) :
  xs <> [] -> lines (join nl xs) = flat_map lines xs.
Proof.
  induction xs as [|x xs IH]; [contradiction|]; intros _.
  destruct xs as [|y xs].
  - simpl; rewrite app_nil_r; reflexivity.
  - change (join nl (x :: y :: xs)) with (x ++ String LF (join nl (y :: xs))).
    rewrite lines_app_LF, IH by discriminate; reflexivity.
Qed.

Lemma single_line_uint (d : Decimal.uint) :
  single_line (NilEmpty.string_of_uint d) = true.
Proof.
  induction d; simpl; auto.
Qed.

Lemma single_line_number (k : nat) :
  single_line (NumberToString (Z.of_nat k)) = true.
Proof.
  unfold NumberToString.
  destruct (Z.of_nat k) eqn:Hk; simpl; try reflexivity.
  - generalize (single_line_uint (Pos.to_uint p)).
    unfold NilZero.string_of_uint.
    destruct (Pos.to_uint p); auto.
  - lia.
Qed.

Lemma prefix_app (p x : string) : prefix p (p ++ x) = true.
Proof.
  induction p as [|c p IH]; simpl; [destruct x; reflexivity|].
  destruct (ascii_dec c c); [assumption | contradiction].
Qed.

(** A line that starts with a number is no header line. *)
Lemma number_not_header (k : nat) (rest : string) :
  is_header_line (NumberToString (Z.of_nat k) ++ rest) = false.
Proof.
  unfold NumberToString, is_header_line.
  destruct (Z.of_nat k) eqn:Hk; simpl; try reflexivity.
  unfold NilZero.string_of_uint.
  destruct (Pos.to_uint p); reflexivity.
Qed.

Lemma lines_entry (k : nat) (item : JsVal) :
  plain_item item = true -> lines (entry_of k item) = item_lines k item.
Proof.
  unfold plain_item; rewrite !andb_true_iff; intros [[Hn Hg] Hl].
  unfold entry_of, entry.
  replace (NumberToString (Z.of_nat k) ++ ". " ++ item_name item ++ " ("
           ++ item_genre item ++ ")" ++ nl ++ "▶ " ++ item_link item)
    with ((NumberToString (Z.of_nat k) ++ ". " ++ item_name item ++ " ("
           ++ item_genre item ++ ")") ++ String LF ("▶ " ++ item_link item))
    by (rewrite !append_assoc; reflexivity).
  rewrite lines_app_LF, !lines_single; [reflexivity | |].
  - simpl; exact Hl.
  - rewrite !single_line_app, single_line_number, Hn, Hg; reflexivity.
Qed.

Lemma lines_numbered_entries (items : list JsVal) :
  forallb plain_item items = true ->
  forall k, flat_map lines (numbered_entries k items) = numbered_lines k items.
Proof.
  induction items as [|item items IH]; intros Hplain k; [reflexivity|].
  cbn [forallb] in Hplain; apply andb_true_iff in Hplain as [Hitem Hitems].
  cbn [numbered_entries flat_map numbered_lines].
  rewrite (lines_entry k item Hitem), (IH Hitems (S k)); reflexivity.
Qed.

Lemma numbered_lines_no_header (items : list JsVal) :
  forall k, filter is_header_line (numbered_lines k items) = [].
Proof.
  induction items as [|item items IH]; intros k; simpl; [reflexivity|].
  rewrite number_not_header, IH; reflexivity.
Qed.

Section FormatterProperties.

Variable toUpperCase : string -> string.

Lemma format_group_block (group : JsVal) (i : nat) :
  is_group group = true ->
  format_group toUpperCase group i = Normal (group_block toUpperCase group).
Proof.
  intros Hgroup.
  destruct (is_group_items group Hgroup)
    as (props & label & -> & Htype & Hdata & Hitems).
  unfold format_group, group_block, header_line, group_label.
  cbn [bind Get]; rewrite Htype; cbn [call_toUpperCase bind].
  rewrite Hdata; cbn [call_map]; unfold mapi.
  rewrite (entries_numbered _ Hitems 0); cbn [bind show ToString].
  rewrite !append_assoc; reflexivity.
Qed.

Lemma blocks_of_groups (groups : list JsVal) :
  forallb is_group groups = true ->
  forall i,
    mapi_from (format_group toUpperCase) i groups
    = Normal (map (group_block toUpperCase) groups).
Proof.
  induction groups as [|group groups IH]; intros Hgroups i; [reflexivity|].
  cbn [forallb] in Hgroups; apply andb_true_iff in Hgroups as [Hgroup Hgroups].
  cbn [mapi_from map].
  rewrite (format_group_block group i Hgroup); cbn [bind].
  rewrite (IH Hgroups (S i)); reflexivity.
Qed.

Lemma format_results_blocks (groups : list JsVal) :
  forallb is_group groups = true ->
  format_results toUpperCase (JArr groups)
  = Normal (join nl (map (group_block toUpperCase) groups)).
Proof.
  intros Hgroups; unfold format_results; cbn [call_map]; unfold mapi.
  rewrite (blocks_of_groups groups Hgroups 0); reflexivity.
Qed.

(** C1, as the code has it: formatting returns a string for every array
    of groups that each have a string [type]; their [data] may be absent
    and their items may lack every field. *)
Theorem format_results_returns (groups : list JsVal) :
  forallb is_group groups = true ->
  exists text, format_results toUpperCase (JArr groups) = Normal text.
Proof.
  intros Hgroups; rewrite (format_results_blocks groups Hgroups); eauto.
Qed.

Lemma group_block_lines (group : JsVal) :
  plain_group toUpperCase group = true ->
  lines (group_block toUpperCase group) = group_lines toUpperCase group.
Proof.
  intros Hplain; apply andb_true_iff in Hplain as [Hlabel Hplains].
  unfold group_block, group_lines.
  change (nl ++ header_line toUpperCase group ++ nl
          ++ join nl (numbered_entries 1 (group_items group)))
    with (String LF (header_line toUpperCase group
                     ++ String LF
                          (join nl (numbered_entries 1 (group_items group))))).
  cbn [lines]; change (Ascii.eqb LF LF) with true; cbv iota.
  rewrite lines_app_LF, lines_single by exact Hlabel.
  cbn [app]; do 2 f_equal.
  destruct (group_items group) as [|item items]; [reflexivity|].
  rewrite lines_join by discriminate.
  now apply lines_numbered_entries.
Qed.

Lemma blocks_lines (groups : list JsVal) :
  forallb (plain_group toUpperCase) groups = true ->
  flat_map lines (map (group_block toUpperCase) groups)
  = flat_map (group_lines toUpperCase) groups.
Proof.
  induction groups as [|group groups IH]; [reflexivity|].
  cbn [forallb flat_map map]; rewrite andb_true_iff; intros [Hplain Hplains].
  rewrite (group_block_lines group Hplain), (IH Hplains); reflexivity.
Qed.

Lemma results_text_lines (q : string) (groups : list JsVal) :
  groups <> [] ->
  single_line q = true ->
  forallb (plain_group toUpperCase) groups = true ->
  lines (results_text toUpperCase q groups) = text_lines toUpperCase q groups.
Proof.
  intros Hne Hq Hplain; unfold results_text, text_lines.
  change (results_line q ++ nl ++ ?x) with (results_line q ++ String LF x).
  rewrite lines_app_LF, lines_single, lines_join, (blocks_lines groups Hplain).
  - reflexivity.
  - destruct groups; [contradiction | discriminate].
  - unfold results_line; rewrite !single_line_app, Hq; reflexivity.
Qed.

Lemma header_lines_of_groups (groups : list JsVal) :
  filter is_header_line (flat_map (group_lines toUpperCase) groups)
  = map (header_line toUpperCase) groups.
Proof.
  induction groups as [|group groups IH]; [reflexivity|].
  cbn [flat_map map]; rewrite filter_app, IH.
  unfold group_lines; cbn [filter].
  change (is_header_line "") with false; cbv iota.
  unfold header_line at 1, is_header_line at 1; rewrite prefix_app.
  destruct (group_items group) as [|item items]; [reflexivity|].
  rewrite numbered_lines_no_header; reflexivity.
Qed.

End FormatterProperties.

Lemma format_results_returns_witness :
  forallb is_group bare_groups = true
  /\ exists text,
      format_results toUpperCase_ascii (JArr bare_groups) = Normal text.
Proof.
  split; [reflexivity|].
  apply (format_results_returns toUpperCase_ascii bare_groups); reflexivity.
Defined.

(** C1 as it is worded fails on a group without [type], and on one whose
    [type] is a number: [group.type.toUpperCase()] throws. *)
Lemma format_results_throws_without_type :
  format_results toUpperCase_ascii (JArr [JObj [("data", JArr [])]])
  = Throw (TypeError
             "Cannot read properties of undefined (reading 'toUpperCase')")
  /\ format_results toUpperCase_ascii
       (JArr [JObj [("type", JNum 7); ("data", JArr [])]])
     = Throw (TypeError "group.type.toUpperCase is not a function").
Proof. split; reflexivity. Qed.

(** ** The tool call and the POST route *)

Lemma params_query_returns (params : JsVal) :
  exists query, params_query params = Normal query.
Proof.
  unfold params_query.
  destruct (GetOpt_returns params "arguments") as [a ->]; cbn [bind].
  apply GetOpt_returns.
Qed.

Section BridgeProperties.

Variable toUpperCase : string -> string.
Variable axios_get : string -> Completion JsVal.

(** How the route answers a [tools/call]: with the result of [callTool]
    on [params?.arguments?.query], or with the error built from what it
    threw. *)
Lemma post_mcp_tools_call (props : list (string * JsVal)) (query : JsVal) :
  prop "method" props = JStr "tools/call" ->
  params_query (prop "params" props) = Normal query ->
  post_mcp toUpperCase axios_get (JObj props)
  = Responded
      match callTool toUpperCase axios_get query with
      | Normal result => res_json 200 (rpc_result (prop "id" props) result)
      | Throw err =>
          res_json 500 (rpc_error (prop "id" props) (-32000) (message_of err))
      end.
Proof.
  intros Hmethod Hquery.
  unfold post_mcp, post_mcp_try, post_mcp_catch; cbn [Get bind].
  rewrite Hmethod; cbn [is_method].
  change (String.eqb "tools/call" "initialize") with false.
  change (String.eqb "tools/call" "tools/list") with false.
  change (String.eqb "tools/call" "tools/call") with true.
  cbv iota.
  unfold params_query in Hquery.
  destruct (GetOpt (prop "params" props) "arguments") as [a|e];
    [|discriminate]; cbn [bind] in *.
  rewrite Hquery; cbn [bind].
  destruct (callTool toUpperCase axios_get query); reflexivity.
Qed.

(** C6: when the upstream has answered a non-empty query with a body on
    which [data.data?.Data] is absent, [null] or an empty array, the call
    returns one entry of type [text] holding the no-results sentence
    around the query. *)
Theorem callTool_no_results (q : string) (body D : JsVal) :
  q <> "" ->
  axios_get (search_url q) = Normal body ->
  data_Data body = Normal D ->
  nullish D = true \/ D = JArr [] ->
  callTool toUpperCase axios_get (JStr q)
  = Normal
      (JObj [("content",
              JArr [JObj [("type", JStr "text");
                          ("text",
                           JStr ("🔍 No results found for " ++ dquote ++ q
                                 ++ dquote
                                 ++ ". Try different station names, countries, or genres."))]])]).
Proof.
  intros Hq Hbody HD Habsent.
  unfold callTool; rewrite (truthy_JStr q Hq); cbn [negb ToString bind].
  rewrite Hbody; cbn [bind].
  unfold results_of; rewrite HD; cbn [bind].
  assert (Hres : js_coalesce D (JArr []) = JArr []).
  { destruct Habsent as [Hn | ->]; [|reflexivity].
    unfold js_coalesce; rewrite Hn; reflexivity. }
  rewrite Hres; reflexivity.
Qed.

(** C5, as the code has it: for [N] groups of the data model, the call
    returns one text entry whose text is the results line followed by the
    [N] blocks of the groups in their order; the block of a group is a
    blank line, its header line (the type upper-cased) and one entry per
    item in the order of the items, the item at position [j] (from 0) of
    any group carrying the number [j + 1].  When neither the query nor a
    label, name, category or link holds a line feed, the lines of the text
    are the results line and, for each group, a blank line, the header line
    and the two lines of each item, and the header lines among them are
    exactly those of the [N] groups. *)
Theorem callTool_groups_numbered (q : string) (body data : JsVal)
        (groups : list JsVal) :
  q <> "" ->
  axios_get (search_url q) = Normal body ->
  Get body "data" = Normal data ->
  Get data "Data" = Normal (JArr groups) ->
  groups <> [] ->
  forallb is_group groups = true ->
  callTool toUpperCase axios_get (JStr q)
  = Normal
      (JObj [("content",
              JArr [JObj [("type", JStr "text");
                          ("text",
                           JStr (results_text toUpperCase q groups))]])])
  /\ (forall group j item,
        In group groups ->
        nth_error (group_items group) j = Some item ->
        nth_error (numbered_entries 1 (group_items group)) j
        = Some (entry_of (j + 1) item))
  /\ (single_line q = true ->
      forallb (plain_group toUpperCase) groups = true ->
      lines (results_text toUpperCase q groups)
      = text_lines toUpperCase q groups
      /\ filter is_header_line (lines (results_text toUpperCase q groups))
         = map (header_line toUpperCase) groups
      /\ List.length
           (filter is_header_line (lines (results_text toUpperCase q groups)))
         = List.length groups).
Proof.
  intros Hq Hbody Hdata HData Hne Hgroups; split; [|split].
  - assert (Hres : results_of body = Normal (JArr groups)).
    { unfold results_of, data_Data, GetOpt; rewrite Hdata; cbn [bind].
      destruct data; try discriminate HData; cbn [nullish];
        rewrite HData; reflexivity. }
    unfold callTool; rewrite (truthy_JStr q Hq); cbn [negb ToString bind].
    rewrite Hbody; cbn [bind]; rewrite Hres; cbn [bind Get].
    change (String.eqb "length" "length") with true; cbv iota.
    assert (Htruthy : truthy (JNum (Z.of_nat (List.length groups))) = true).
    { destruct groups; [contradiction|]; simpl; reflexivity. }
    rewrite Htruthy; cbn [negb].
    rewrite (format_results_blocks toUpperCase groups Hgroups); cbn [bind].
    unfold tool_result, results_text, results_line.
    rewrite !append_assoc; reflexivity.
  - intros group j item _ Hj.
    rewrite (numbered_entries_nth _ 1 j item Hj), Nat.add_comm; reflexivity.
  - intros Hsingle Hplain.
    rewrite (results_text_lines toUpperCase q groups Hne Hsingle Hplain).
    assert (Hheaders : filter is_header_line (text_lines toUpperCase q groups)
                       = map (header_line toUpperCase) groups).
    { unfold text_lines; cbn [filter].
      change (is_header_line (results_line q)) with false; cbv iota.
      apply header_lines_of_groups. }
    split; [reflexivity|split; [exact Hheaders|]].
    rewrite Hheaders; apply length_map.
Qed.

(** C3, as the code has it: a call whose query is absent or empty (or
    falsy in any other way) is answered with status 500 and the error
    code -32000, the code of every caught exception, with the message
    [Missing query term.] *)
Theorem missing_query_internal_error (props : list (string * JsVal))
        (query : JsVal) :
  prop "method" props = JStr "tools/call" ->
  params_query (prop "params" props) = Normal query ->
  truthy query = false ->
  post_mcp toUpperCase axios_get (JObj props)
  = Responded
      (mkResponse 500 "application/json"
         (JObj [("jsonrpc", JStr "2.0"); ("id", prop "id" props);
                ("error", JObj [("code", JNum (-32000));
                                ("message", JStr "Missing query term.")])])).
Proof.
  intros Hmethod Hquery Hfalsy.
  rewrite (post_mcp_tools_call props query Hmethod Hquery).
  unfold callTool; rewrite Hfalsy; reflexivity.
Qed.

(** C7: a [tools/call] is always answered; whatever [callTool] throws is
    answered with status 500, code -32000 and the message of the exception
    ([Internal error] when that message is empty); so is the error with
    which the upstream call rejects. *)
Theorem tools_call_exceptions_caught (props : list (string * JsVal))
        (query : JsVal) :
  prop "method" props = JStr "tools/call" ->
  params_query (prop "params" props) = Normal query ->
  (exists r, post_mcp toUpperCase axios_get (JObj props) = Responded r)
  /\ (forall err,
        callTool toUpperCase axios_get query = Throw err ->
        post_mcp toUpperCase axios_get (JObj props)
        = Responded
            (mkResponse 500 "application/json"
               (JObj [("jsonrpc", JStr "2.0"); ("id", prop "id" props);
                      ("error",
                       JObj [("code", JNum (-32000));
                             ("message",
                              JStr (if String.eqb (exn_message err) ""
                                    then "Internal error"
                                    else exn_message err))])])))
  /\ (forall q err,
        query = JStr q -> q <> "" ->
        axios_get (search_url q) = Throw err ->
        exn_message err <> "" ->
        post_mcp toUpperCase axios_get (JObj props)
        = Responded
            (mkResponse 500 "application/json"
               (JObj [("jsonrpc", JStr "2.0"); ("id", prop "id" props);
                      ("error",
                       JObj [("code", JNum (-32000));
                             ("message", JStr (exn_message err))])]))).
Proof.
  intros Hmethod Hquery.
  rewrite (post_mcp_tools_call props query Hmethod Hquery).
  split; [eauto|split].
  - intros err ->; reflexivity.
  - intros q err -> Hq Hfail Hmessage.
    unfold callTool; rewrite (truthy_JStr q Hq); cbn [negb ToString bind].
    rewrite Hfail; cbn [bind]; unfold res_json, rpc_error, message_of.
    destruct (String.eqb_spec (exn_message err) ""); [contradiction|].
    reflexivity.
Qed.

(** C8: a request whose method is none of the three names and prints as
    [m] (as every string does, and every number, boolean, [null] or absent
    method) is answered with status 400 and the error code -32601, under
    the id of the request, with the message [Unknown method: m]. *)
Theorem unknown_method_not_found (body method id : JsVal) (m : string) :
  Get body "method" = Normal method ->
  Get body "id" = Normal id ->
  is_method method "initialize" = false ->
  is_method method "tools/list" = false ->
  is_method method "tools/call" = false ->
  ToString method = Normal m ->
  post_mcp toUpperCase axios_get body
  = Responded
      (mkResponse 400 "application/json"
         (JObj [("jsonrpc", JStr "2.0"); ("id", id);
                ("error", JObj [("code", JNum (-32601));
                                ("message", JStr ("Unknown method: " ++ m))])])).
Proof.
  intros Hmethod Hid H1 H2 H3 Hm.
  assert (Hparams : exists params, Get body "params" = Normal params).
  { destruct body; try discriminate; simpl; eauto. }
  destruct Hparams as [params Hparams].
  unfold post_mcp, post_mcp_try.
  rewrite Hmethod, Hid, Hparams; cbn [bind].
  rewrite H1, H2, H3, Hm; reflexivity.
Qed.

(** C9: an [initialize] request is answered with the fixed result,
    whatever its params hold; the result names the protocol version of the
    server and the tools capability. *)
Theorem initialize_fixed_result (props : list (string * JsVal)) :
  prop "method" props = JStr "initialize" ->
  post_mcp toUpperCase axios_get (JObj props)
  = Responded
      (mkResponse 200 "application/json"
         (JObj [("jsonrpc", JStr "2.0"); ("id", prop "id" props);
                ("result", initialize_result)]))
  /\ Get initialize_result "protocolVersion" = Normal (JStr "2025-06-18")
  /\ Get initialize_result "capabilities"
     = Normal (JObj [("tools", JObj [])]).
Proof.
  intros Hmethod; split; [|split; reflexivity].
  unfold post_mcp, post_mcp_try; cbn [Get bind].
  rewrite Hmethod; reflexivity.
Qed.

(** C10: the answer to a call is determined by the arguments of its
    params (and its id): two requests with the same arguments are answered
    alike by the route and by the handler registered for the streaming
    server, whatever else their params hold, a tool name or none; both run
    [callTool] on the query of the arguments. *)
Theorem tool_name_not_inspected (id params1 params2 arguments : JsVal) :
  Get params1 "arguments" = Normal arguments ->
  Get params2 "arguments" = Normal arguments ->
  post_mcp toUpperCase axios_get (rpc_request "tools/call" id params1)
  = post_mcp toUpperCase axios_get (rpc_request "tools/call" id params2)
  /\ call_tool_handler toUpperCase axios_get
       (rpc_request "tools/call" id params1)
     = call_tool_handler toUpperCase axios_get
         (rpc_request "tools/call" id params2)
  /\ call_tool_handler toUpperCase axios_get
       (rpc_request "tools/call" id params1)
     = (query <- GetOpt arguments "query" ;;
        callTool toUpperCase axios_get query)
  /\ post_mcp toUpperCase axios_get (rpc_request "tools/call" id params1)
     = Responded
         match (query <- GetOpt arguments "query" ;;
                callTool toUpperCase axios_get query) with
         | Normal result => res_json 200 (rpc_result id result)
         | Throw err => res_json 500 (rpc_error id (-32000) (message_of err))
         end.
Proof.
  intros H1 H2.
  assert (Hopt : forall params,
             Get params "arguments" = Normal arguments ->
             GetOpt params "arguments" = Normal arguments).
  { intros params H; unfold GetOpt.
    destruct params; simpl in *; try discriminate; assumption. }
  assert (Hpost : forall params,
             Get params "arguments" = Normal arguments ->
             post_mcp toUpperCase axios_get (rpc_request "tools/call" id params)
             = Responded
                 match (query <- GetOpt arguments "query" ;;
                        callTool toUpperCase axios_get query) with
                 | Normal result => res_json 200 (rpc_result id result)
                 | Throw err =>
                     res_json 500 (rpc_error id (-32000) (message_of err))
                 end).
  { intros params H.
    destruct (GetOpt_returns arguments "query") as [query Hq].
    unfold rpc_request.
    rewrite (post_mcp_tools_call _ query); [| reflexivity |].
    - rewrite Hq; reflexivity.
    - change (prop "params" _) with params.
      unfold params_query; rewrite (Hopt params H); assumption. }
  assert (Hsse : forall params,
             Get params "arguments" = Normal arguments ->
             call_tool_handler toUpperCase axios_get
               (rpc_request "tools/call" id params)
             = (query <- GetOpt arguments "query" ;;
                callTool toUpperCase axios_get query)).
  { intros params H; unfold call_tool_handler, rpc_request; cbn [Get bind].
    change (prop "params" _) with params; cbn [bind].
    rewrite H; reflexivity. }
  rewrite !Hpost, !Hsse by assumption; auto.
Qed.

End BridgeProperties.

(** ** Concrete runs *)

(** The text for the sample answer: the podcast of the second group is
    numbered 1 again. *)
Example callTool_bbc_text :
  callTool toUpperCase_ascii (upstream_answers bbc_body) (JStr "BBC")
  = Normal
      (tool_result
         ("🔍 Results for " ++ dquote ++ "BBC" ++ dquote ++ ":" ++ nl
          ++ nl ++ "🎧 STATION" ++ nl
          ++ "1. BBC Radio 1 (Pop)" ++ nl
          ++ "▶ https://appradiofm.com/radioplay/bbc1" ++ nl
          ++ "2. BBC World Service (News)" ++ nl
          ++ "▶ https://appradiofm.com/world" ++ nl
          ++ nl ++ "🎧 PODCAST" ++ nl
          ++ "1. Jazz Hour (Music)" ++ nl
          ++ "▶ https://appradiofm.com/radioplay/jazzhour")).
Proof. reflexivity. Qed.

Example bbc_text_lines :
  text_lines toUpperCase_ascii "BBC" bbc_groups
  = [results_line "BBC";
     "";
     "🎧 STATION";
     "1. BBC Radio 1 (Pop)";
     "▶ https://appradiofm.com/radioplay/bbc1";
     "2. BBC World Service (News)";
     "▶ https://appradiofm.com/world";
     "";
     "🎧 PODCAST";
     "1. Jazz Hour (Music)";
     "▶ https://appradiofm.com/radioplay/jazzhour"].
Proof. reflexivity. Qed.

(** A group without items still has its header line, followed by an empty
    line. *)
Example bare_groups_text :
  format_results toUpperCase_ascii (JArr bare_groups)
  = Normal (nl ++ "🎧 STATION" ++ nl
            ++ nl
            ++ nl ++ "🎧 PODCAST" ++ nl
            ++ "1. undefined (undefined)" ++ nl
            ++ "▶ https://appradiofm.com/radioplay/undefined").
Proof. reflexivity. Qed.

Example search_url_encoded :
  search_url "a b/c"
  = "https://devappradiofm.radiofm.co/rfm/api/new_combo_search.php?srch=a%20b%2Fc".
Proof. reflexivity. Qed.

Lemma callTool_groups_numbered_witness :
  forallb is_group bbc_groups = true
  /\ callTool toUpperCase_ascii (upstream_answers bbc_body) (JStr "BBC")
     = Normal
         (JObj [("content",
                 JArr [JObj [("type", JStr "text");
                             ("text",
                              JStr (results_text toUpperCase_ascii "BBC"
                                      bbc_groups))]])])
  /\ filter is_header_line
       (lines (results_text toUpperCase_ascii "BBC" bbc_groups))
     = ["🎧 STATION"; "🎧 PODCAST"].
Proof.
  split; [reflexivity|].
  destruct (callTool_groups_numbered toUpperCase_ascii
              (upstream_answers bbc_body) "BBC" bbc_body
              (JObj [("Data", JArr bbc_groups)]) bbc_groups)
    as (Htext & _ & Hlines);
    [discriminate | reflexivity | reflexivity | reflexivity | discriminate
    | reflexivity |].
  split; [exact Htext|].
  exact (proj1 (proj2 (Hlines eq_refl eq_refl))).
Defined.

(** C5 as it is worded fails on a field that holds a line feed: the one
    group of [line_feed_groups] gives a text with two lines that read as
    group headers. *)
Lemma callTool_line_feed_header :
  forallb is_group line_feed_groups = true
  /\ List.length line_feed_groups = 1
  /\ callTool toUpperCase_ascii (upstream_answers line_feed_body) (JStr "BBC")
     = Normal
         (JObj [("content",
                 JArr [JObj [("type", JStr "text");
                             ("text",
                              JStr ("🔍 Results for " ++ dquote ++ "BBC"
                                    ++ dquote ++ ":" ++ nl
                                    ++ nl ++ "🎧 STATION" ++ nl
                                    ++ "1. Radio One" ++ nl
                                    ++ "🎧 PODCAST (Pop)" ++ nl
                                    ++ "▶ https://appradiofm.com/radioplay/one"))]])])
  /\ filter is_header_line
       (lines ("🔍 Results for " ++ dquote ++ "BBC" ++ dquote ++ ":" ++ nl
               ++ nl ++ "🎧 STATION" ++ nl
               ++ "1. Radio One" ++ nl
               ++ "🎧 PODCAST (Pop)" ++ nl
               ++ "▶ https://appradiofm.com/radioplay/one"))
     = ["🎧 STATION"; "🎧 PODCAST (Pop)"].
Proof. repeat split. Qed.

Lemma callTool_no_results_witness :
  data_Data empty_body = Normal JUndefined
  /\ callTool toUpperCase_ascii (upstream_answers empty_body) (JStr "zzz")
     = Normal
         (JObj [("content",
                 JArr [JObj [("type", JStr "text");
                             ("text",
                              JStr ("🔍 No results found for " ++ dquote
                                    ++ "zzz" ++ dquote
                                    ++ ". Try different station names, countries, or genres."))]])]).
Proof.
  split; [reflexivity|].
  apply (callTool_no_results toUpperCase_ascii (upstream_answers empty_body)
           "zzz" empty_body JUndefined);
    [discriminate | reflexivity | reflexivity | left; reflexivity].
Defined.

Lemma missing_query_internal_error_witness :
  params_query queryless_params = Normal JUndefined
  /\ post_mcp toUpperCase_ascii (upstream_answers bbc_body)
       (rpc_request "tools/call" (JNum 1) queryless_params)
     = Responded
         (res_json 500 (rpc_error (JNum 1) (-32000) "Missing query term."))
  /\ post_mcp toUpperCase_ascii (upstream_answers bbc_body)
       (rpc_request "tools/call" (JNum 1) (nameless_params ""))
     = Responded
         (res_json 500 (rpc_error (JNum 1) (-32000) "Missing query term.")).
Proof.
  split; [reflexivity|split].
  - apply (missing_query_internal_error toUpperCase_ascii
             (upstream_answers bbc_body)
             (rpc_props "tools/call" (JNum 1) queryless_params) JUndefined);
      reflexivity.
  - apply (missing_query_internal_error toUpperCase_ascii
             (upstream_answers bbc_body)
             (rpc_props "tools/call" (JNum 1) (nameless_params ""))
             (JStr ""));
      reflexivity.
Defined.

(** C3 as it is worded fails: the call without a query is answered under
    the code -32000, the same code as a call whose upstream request
    failed. *)
Lemma missing_query_shares_generic_code :
  post_mcp toUpperCase_ascii (upstream_fails "Network Error")
    (rpc_request "tools/call" (JNum 1) queryless_params)
  = Responded
      (res_json 500 (rpc_error (JNum 1) (-32000) "Missing query term."))
  /\ post_mcp toUpperCase_ascii (upstream_fails "Network Error")
       (rpc_request "tools/call" (JNum 2)
          (call_params "search_radio_stations" "BBC"))
     = Responded (res_json 500 (rpc_error (JNum 2) (-32000) "Network Error")).
Proof. split; reflexivity. Qed.

Lemma tools_call_exceptions_caught_witness :
  callTool toUpperCase_ascii (upstream_fails "Network Error") (JStr "BBC")
  = Throw (mkExn "AxiosError" "Network Error")
  /\ post_mcp toUpperCase_ascii (upstream_fails "Network Error")
       (rpc_request "tools/call" (JNum 2)
          (call_params "search_radio_stations" "BBC"))
     = Responded
         (mkResponse 500 "application/json"
            (JObj [("jsonrpc", JStr "2.0"); ("id", JNum 2);
                   ("error", JObj [("code", JNum (-32000));
                                   ("message", JStr "Network Error")])]))
  /\ post_mcp toUpperCase_ascii (upstream_fails "")
       (rpc_request "tools/call" (JNum 2)
          (call_params "search_radio_stations" "BBC"))
     = Responded
         (mkResponse 500 "application/json"
            (JObj [("jsonrpc", JStr "2.0"); ("id", JNum 2);
                   ("error", JObj [("code", JNum (-32000));
                                   ("message", JStr "Internal error")])])).
Proof.
  split; [reflexivity|split].
  - apply (proj2 (proj2 (tools_call_exceptions_caught toUpperCase_ascii
             (upstream_fails "Network Error")
             (rpc_props "tools/call" (JNum 2)
                (call_params "search_radio_stations" "BBC"))
             (JStr "BBC") eq_refl eq_refl))
             "BBC" (mkExn "AxiosError" "Network Error"));
      [reflexivity | discriminate | reflexivity | discriminate].
  - apply (proj1 (proj2 (tools_call_exceptions_caught toUpperCase_ascii
             (upstream_fails "")
             (rpc_props "tools/call" (JNum 2)
                (call_params "search_radio_stations" "BBC"))
             (JStr "BBC") eq_refl eq_refl))
             (mkExn "AxiosError" ""));
      reflexivity.
Defined.

Lemma unknown_method_not_found_witness :
  is_method (JStr "resources/list") "tools/call" = false
  /\ post_mcp toUpperCase_ascii (upstream_answers bbc_body)
       (rpc_request "resources/list" (JStr "req-3") JUndefined)
     = Responded
         (mkResponse 400 "application/json"
            (JObj [("jsonrpc", JStr "2.0"); ("id", JStr "req-3");
                   ("error",
                    JObj [("code", JNum (-32601));
                          ("message",
                           JStr ("Unknown method: " ++ "resources/list"))])])).
Proof.
  split; [reflexivity|].
  apply (unknown_method_not_found toUpperCase_ascii (upstream_answers bbc_body)
           (rpc_request "resources/list" (JStr "req-3") JUndefined)
           (JStr "resources/list") (JStr "req-3") "resources/list");
    reflexivity.
Defined.

(** A method that is no name at all: an object that carries a property
    [toString] cannot be converted to a string, the template literal of the
    message throws inside the [try], and the [catch] answers. *)
Remark unknown_method_unprintable :
  post_mcp toUpperCase_ascii (upstream_answers bbc_body)
    (JObj [("jsonrpc", JStr "2.0"); ("id", JNum 4);
           ("method", JObj [("toString", JNum 1)])])
  = Responded
      (res_json 500
         (rpc_error (JNum 4) (-32000)
                    "Cannot convert object to primitive value")).
Proof. reflexivity. Qed.

Lemma initialize_fixed_result_witness :
  post_mcp toUpperCase_ascii (upstream_answers bbc_body)
    (rpc_request "initialize" (JNum 0)
       (JObj [("protocolVersion", JStr "2024-11-05")]))
  = Responded (res_json 200 (rpc_result (JNum 0) initialize_result))
  /\ post_mcp toUpperCase_ascii (upstream_answers bbc_body)
       (JObj [("method", JStr "initialize"); ("id", JNum 0)])
     = Responded (res_json 200 (rpc_result (JNum 0) initialize_result)).
Proof.
  split.
  - apply (initialize_fixed_result toUpperCase_ascii (upstream_answers bbc_body)
             (rpc_props "initialize" (JNum 0)
                (JObj [("protocolVersion", JStr "2024-11-05")]))).
    reflexivity.
  - apply (initialize_fixed_result toUpperCase_ascii (upstream_answers bbc_body)
             [("method", JStr "initialize"); ("id", JNum 0)]).
    reflexivity.
Defined.

Lemma tool_name_not_inspected_witness :
  post_mcp toUpperCase_ascii (upstream_answers bbc_body)
    (rpc_request "tools/call" (JNum 5) (call_params "no_such_tool" "BBC"))
  = post_mcp toUpperCase_ascii (upstream_answers bbc_body)
      (rpc_request "tools/call" (JNum 5) (nameless_params "BBC"))
  /\ call_tool_handler toUpperCase_ascii (upstream_answers bbc_body)
       (rpc_request "tools/call" (JNum 5) (call_params "no_such_tool" "BBC"))
     = call_tool_handler toUpperCase_ascii (upstream_answers bbc_body)
         (rpc_request "tools/call" (JNum 5)
            (call_params "search_radio_stations" "BBC")).
Proof.
  split.
  - apply (tool_name_not_inspected toUpperCase_ascii
             (upstream_answers bbc_body) (JNum 5)
             (call_params "no_such_tool" "BBC") (nameless_params "BBC")
             (JObj [("query", JStr "BBC")]));
      reflexivity.
  - apply (tool_name_not_inspected toUpperCase_ascii
             (upstream_answers bbc_body) (JNum 5)
             (call_params "no_such_tool" "BBC")
             (call_params "search_radio_stations" "BBC")
             (JObj [("query", JStr "BBC")]));
      reflexivity.
Defined.

(** * Further properties *)

(** ** The address of the search *)

Lemma all_chars_app (p : ascii -> bool) (a b : string) :
  all_chars p (a ++ b) = all_chars p a && all_chars p b.
Proof.
  induction a as [|c a IH]; simpl; [reflexivity|].
  rewrite IH, andb_assoc; reflexivity.
Qed.

Lemma all_chars_In (p : ascii -> bool) (s : string) (c : ascii) :
  all_chars p s = true -> In c (list_ascii_of_string s) -> p c = true.
Proof.
  induction s as [|x s IH]; simpl; [tauto|].
  rewrite andb_true_iff; intros [Hx Hs] [<-|Hc]; auto.
Qed.

Lemma percent_safe (c : ascii) : all_chars uri_safe (percent c) = true.
Proof.
  destruct c as [[|] [|] [|] [|] [|] [|] [|] [|]]; reflexivity.
Qed.

Lemma encodeURIComponent_all_safe (s : string) :
  all_chars uri_safe (encodeURIComponent s) = true.
Proof.
  induction s as [|c s IH]; simpl; [reflexivity|].
  rewrite all_chars_app, IH, andb_true_r.
  destruct (unreserved c) eqn:Hc; [|apply percent_safe].
  simpl; unfold uri_safe; rewrite Hc; reflexivity.
Qed.

Lemma encodeURIComponent_chars (s : string) (c : ascii) :
  In c (list_ascii_of_string (encodeURIComponent s)) ->
  uri_safe c = true /\ ~ In c uri_delimiters.
Proof.
  intros Hc.
  pose proof (all_chars_In _ _ _ (encodeURIComponent_all_safe s) Hc) as Hsafe.
  split; [assumption|].
  intros Hd; simpl in Hd.
  repeat (destruct Hd as [<-|Hd]; [discriminate Hsafe|]).
  exact Hd.
Qed.

(** The address of the search is the fixed address of the API up to
    [srch=], followed by text made of unreserved characters and percent
    signs: whatever the query holds, no space, double quote or delimiter of
    the address comes through. *)
Theorem search_url_no_delimiter (q : string) :
  exists escaped,
    search_url q
    = "https://devappradiofm.radiofm.co/rfm/api/new_combo_search.php?srch="
      ++ escaped
    /\ forall c,
        In c (list_ascii_of_string escaped) ->
        uri_safe c = true /\ ~ In c uri_delimiters.
Proof.
  exists (encodeURIComponent q); split; [reflexivity|].
  intros c; apply encodeURIComponent_chars.
Qed.

Example search_url_escapes :
  search_url "a&b=c d"
  = "https://devappradiofm.radiofm.co/rfm/api/new_combo_search.php?srch=a%26b%3Dc%20d".
Proof. reflexivity. Qed.

Lemma hex_digit_inj (a b : nat) :
  a < 16 -> b < 16 -> hex_digit a = hex_digit b -> a = b.
Proof.
  unfold hex_digit; intros Ha Hb H.
  apply (f_equal nat_of_ascii) in H.
  destruct (Nat.ltb_spec a 10), (Nat.ltb_spec b 10);
    rewrite !nat_ascii_embedding in H by lia; lia.
Qed.

Lemma percent_inj (a b : ascii) : percent a = percent b -> a = b.
Proof.
  unfold percent; cbv zeta; intros H.
  pose proof (nat_ascii_bounded a) as Ha.
  pose proof (nat_ascii_bounded b) as Hb.
  assert (Hhi : hex_digit (nat_of_ascii a / 16)
                = hex_digit (nat_of_ascii b / 16)) by congruence.
  assert (Hlo : hex_digit (nat_of_ascii a mod 16)
                = hex_digit (nat_of_ascii b mod 16)) by congruence.
  apply hex_digit_inj in Hhi;
    [|apply Nat.Div0.div_lt_upper_bound; lia
     |apply Nat.Div0.div_lt_upper_bound; lia].
  apply hex_digit_inj in Hlo; [|apply Nat.mod_upper_bound; lia
                               |apply Nat.mod_upper_bound; lia].
  rewrite <- (ascii_nat_embedding a), <- (ascii_nat_embedding b).
  f_equal.
  rewrite (Nat.div_mod_eq (nat_of_ascii a) 16),
    (Nat.div_mod_eq (nat_of_ascii b) 16); congruence.
Qed.

Lemma percent_app_inv (a b : ascii) (x y : string) :
  percent a ++ x = percent b ++ y -> a = b /\ x = y.
Proof.
  unfold percent; cbv zeta; cbn [append]; intros H.
  split; [|congruence].
  apply percent_inj; unfold percent; cbv zeta; congruence.
Qed.

Lemma encodeURIComponent_injective (a b : string) :
  encodeURIComponent a = encodeURIComponent b -> a = b.
Proof.
  revert b; induction a as [|ca a IH]; intros [|cb b]; simpl.
  - reflexivity.
  - destruct (unreserved cb); discriminate.
  - destruct (unreserved ca); discriminate.
  - destruct (unreserved ca) eqn:Ha, (unreserved cb) eqn:Hb; simpl.
    + intros H; injection H as -> H; f_equal; auto.
    + intros H; injection H as -> _; discriminate Ha.
    + intros H; injection H as <- _; discriminate Hb.
    + intros H; apply percent_app_inv in H as [-> H]; f_equal; auto.
Qed.

Lemma append_inv_head (p x y : string) : p ++ x = p ++ y -> x = y.
Proof.
  induction p as [|c p IH]; simpl; [auto|].
  intros H; injection H as H; auto.
Qed.

(** Different queries are searched under different addresses. *)
Theorem search_url_distinct (a b : string) :
  a <> b -> search_url a <> search_url b.
Proof.
  unfold search_url; intros Hab H; apply Hab.
  do 2 apply append_inv_head in H.
  now apply encodeURIComponent_injective.
Qed.

Lemma search_url_distinct_witness :
  "a b" <> "a+b" /\ search_url "a b" <> search_url "a+b".
Proof.
  split; [discriminate|].
  apply (search_url_distinct "a b" "a+b"); discriminate.
Defined.

(** ** The tool call *)

Section CallToolProperties.

Variable toUpperCase : string -> string.

(** The upstream is consulted at one address only, that of the query; a
    query that is falsy or cannot be printed does not reach it at all. *)
Theorem callTool_upstream_local (query : JsVal)
        (upstream1 upstream2 : string -> Completion JsVal) :
  (forall q, truthy query = true -> ToString query = Normal q ->
             upstream1 (search_url q) = upstream2 (search_url q)) ->
  callTool toUpperCase upstream1 query = callTool toUpperCase upstream2 query.
Proof.
  intros Hsame; unfold callTool.
  destruct (truthy query) eqn:Ht; cbn [negb]; [|reflexivity].
  destruct (ToString query) as [q|e] eqn:Hq; cbn [bind]; [|reflexivity].
  rewrite (Hsame q eq_refl eq_refl); reflexivity.
Qed.

Lemma format_group_headed (group : JsVal) (i : nat) (block : string) :
  format_group toUpperCase group i = Normal block ->
  headed_block toUpperCase group block.
Proof.
  unfold format_group, headed_block.
  destruct (Get group "type") as [t|e]; cbn [bind]; [|discriminate].
  destruct t as [| | | |label| |]; cbn [call_toUpperCase bind];
    try discriminate.
  destruct (Get group "data") as [data|e]; cbn [bind]; [|discriminate].
  destruct (call_map "(group.data || []).map" (js_or data (JArr []))
              format_item) as [entries|e]; cbn [bind]; [|discriminate].
  intros [= <-]; exists label, (join nl entries); split; reflexivity.
Qed.

Lemma mapi_from_Forall2 {A B : Type} (f : A -> nat -> Completion B)
      (R : A -> B -> Prop) (xs : list A) :
  (forall x i y, f x i = Normal y -> R x y) ->
  forall i ys, mapi_from f i xs = Normal ys -> Forall2 R xs ys.
Proof.
  intros Hf; induction xs as [|x xs IH]; intros i ys H; cbn [mapi_from] in H.
  - injection H as <-; constructor.
  - destruct (f x i) as [y|e] eqn:Hx; cbn [bind] in H; [|discriminate].
    destruct (mapi_from f (S i) xs) as [zs|e] eqn:Hxs; cbn [bind] in H;
      [|discriminate].
    injection H as <-; constructor; eauto.
Qed.

(** What the call returns, when it returns: the query is truthy and
    prints, the upstream has answered the search for it, and the result is
    one text entry.  When the [length] of the results is falsy the text is
    the no-results sentence; otherwise the results are an array and the
    text is the results line followed by one block per group, in order,
    each headed by the upper-cased [type] of its group.  The query stands
    between the quotes as it prints. *)
Theorem callTool_result_shape (axios_get : string -> Completion JsVal)
        (query result : JsVal) :
  callTool toUpperCase axios_get query = Normal result ->
  exists q data d D results len,
    truthy query = true
    /\ ToString query = Normal q
    /\ axios_get (search_url q) = Normal data
    /\ Get data "data" = Normal d
    /\ GetOpt d "Data" = Normal D
    /\ results = (if nullish D then JArr [] else D)
    /\ Get results "length" = Normal len
    /\ ((truthy len = false
         /\ result
            = JObj [("content",
                     JArr [JObj [("type", JStr "text");
                                 ("text", JStr (no_results_text q))]])])
        \/ (truthy len = true
            /\ exists groups blocks,
                results = JArr groups
                /\ Forall2 (headed_block toUpperCase) groups blocks
                /\ result
                   = JObj [("content",
                            JArr [JObj [("type", JStr "text");
                                        ("text",
                                         JStr (results_line q ++ nl
                                               ++ join nl blocks))]])])).
Proof.
  unfold callTool.
  destruct (truthy query) eqn:Ht; cbn [negb]; [|discriminate].
  destruct (ToString query) as [q|e] eqn:Hq; cbn [bind]; [|discriminate].
  destruct (axios_get (search_url q)) as [data|e] eqn:Hdata; cbn [bind];
    [|discriminate].
  unfold results_of, data_Data.
  destruct (Get data "data") as [d|e] eqn:Hd; cbn [bind]; [|discriminate].
  destruct (GetOpt d "Data") as [D|e] eqn:HD; cbn [bind]; [|discriminate].
  unfold js_coalesce.
  destruct (Get (if nullish D then JArr [] else D) "length") as [len|e]
    eqn:Hlen; cbn [bind]; [|discriminate].
  intros H; exists q, data, d, D, (if nullish D then JArr [] else D), len.
  do 7 (split; [first [reflexivity | assumption]|]).
  set (results := if nullish D then JArr [] else D) in *; clearbody results.
  destruct (truthy len); cbn [negb] in H.
  - right; split; [reflexivity|].
    unfold format_results in H.
    destruct results as [| | | | |groups|]; cbn [call_map bind] in H;
      try discriminate.
    unfold mapi in H.
    destruct (mapi_from (format_group toUpperCase) 0 groups) as [blocks|e]
      eqn:Hblocks; cbn [bind] in H; [|discriminate].
    injection H as <-; exists groups, blocks; split; [reflexivity|split].
    + eapply mapi_from_Forall2; [|exact Hblocks].
      intros group i block; apply format_group_headed.
    + unfold tool_result, results_line; rewrite !append_assoc; reflexivity.
  - left; split; [reflexivity|]; injection H as <-; reflexivity.
Qed.

(** A [Data] that is no array: it counts as an empty result when its
    [length] is falsy (a number, a boolean, an object without [length], the
    empty string), and makes the call throw when its [length] is truthy (a
    non-empty string, an object with a [length]). *)
Theorem callTool_Data_not_an_array (axios_get : string -> Completion JsVal)
        (q : string) (body results len : JsVal) :
  q <> "" ->
  axios_get (search_url q) = Normal body ->
  results_of body = Normal results ->
  (forall groups, results <> JArr groups) ->
  Get results "length" = Normal len ->
  callTool toUpperCase axios_get (JStr q)
  = if truthy len
    then Throw (TypeError "results.map is not a function")
    else Normal (tool_result (no_results_text q)).
Proof.
  intros Hq Hbody Hres Hnot Hlen.
  unfold callTool; rewrite (truthy_JStr q Hq); cbn [negb ToString bind].
  rewrite Hbody; cbn [bind]; rewrite Hres; cbn [bind]; rewrite Hlen; cbn [bind].
  destruct (truthy len); cbn [negb]; [|reflexivity].
  unfold format_results.
  destruct results; try reflexivity.
  now destruct (Hnot elems).
Qed.

End CallToolProperties.

Lemma callTool_upstream_local_witness :
  callTool toUpperCase_ascii (upstream_only (search_url "BBC") bbc_body)
    (JStr "BBC")
  = callTool toUpperCase_ascii (upstream_answers bbc_body) (JStr "BBC").
Proof.
  apply (callTool_upstream_local toUpperCase_ascii (JStr "BBC")
           (upstream_only (search_url "BBC") bbc_body)
           (upstream_answers bbc_body)).
  intros q _ [= <-]; reflexivity.
Defined.

Lemma callTool_result_shape_witness :
  callTool toUpperCase_ascii (upstream_answers empty_body) (JArr [JNum 7])
  = Normal (JObj [("content",
                   JArr [JObj [("type", JStr "text");
                               ("text", JStr (no_results_text "7"))]])])
  /\ exists q data d D results len,
      truthy (JArr [JNum 7]) = true
      /\ ToString (JArr [JNum 7]) = Normal q
      /\ upstream_answers empty_body (search_url q) = Normal data
      /\ Get data "data" = Normal d
      /\ GetOpt d "Data" = Normal D
      /\ results = (if nullish D then JArr [] else D)
      /\ Get results "length" = Normal len
      /\ ((truthy len = false
           /\ JObj [("content",
                     JArr [JObj [("type", JStr "text");
                                 ("text", JStr (no_results_text "7"))]])]
              = JObj [("content",
                       JArr [JObj [("type", JStr "text");
                                   ("text", JStr (no_results_text q))]])])
          \/ (truthy len = true
              /\ exists groups blocks,
                  results = JArr groups
                  /\ Forall2 (headed_block toUpperCase_ascii) groups blocks
                  /\ JObj [("content",
                            JArr [JObj [("type", JStr "text");
                                        ("text", JStr (no_results_text "7"))]])]
                     = JObj [("content",
                              JArr [JObj [("type", JStr "text");
                                          ("text",
                                           JStr (results_line q ++ nl
                                                 ++ join nl blocks))]])])).
Proof.
  split; [reflexivity|].
  apply (callTool_result_shape toUpperCase_ascii (upstream_answers empty_body)
           (JArr [JNum 7])).
  reflexivity.
Defined.

Lemma callTool_Data_not_an_array_witness :
  callTool toUpperCase_ascii
    (upstream_answers (JObj [("data", JObj [("Data", JStr "oops")])]))
    (JStr "BBC")
  = Throw (TypeError "results.map is not a function")
  /\ callTool toUpperCase_ascii
       (upstream_answers (JObj [("data", JObj [("Data", JNum 3)])]))
       (JStr "BBC")
     = Normal (tool_result (no_results_text "BBC")).
Proof.
  split.
  - apply (callTool_Data_not_an_array toUpperCase_ascii
             (upstream_answers (JObj [("data", JObj [("Data", JStr "oops")])]))
             "BBC" (JObj [("data", JObj [("Data", JStr "oops")])])
             (JStr "oops") (JNum 4));
      [discriminate | reflexivity | reflexivity | discriminate | reflexivity].
  - apply (callTool_Data_not_an_array toUpperCase_ascii
             (upstream_answers (JObj [("data", JObj [("Data", JNum 3)])]))
             "BBC" (JObj [("data", JObj [("Data", JNum 3)])])
             (JNum 3) JUndefined);
      [discriminate | reflexivity | reflexivity | discriminate | reflexivity].
Defined.

(** ** The formatter, group by group *)

Section FormatterFurther.

Variable toUpperCase : string -> string.

Lemma format_group_shape (group : JsVal) (i : nat) (block : string) :
  format_group toUpperCase group i = Normal block -> group_shape group.
Proof.
  unfold format_group.
  destruct group as [| |b|n|s|elems|props]; cbn [Get bind];
    try change (String.eqb "type" "length") with false; cbv iota;
    cbn [call_toUpperCase bind]; try discriminate.
  destruct (prop "type" props) as [| | | |label| |] eqn:Htype;
    cbn [call_toUpperCase bind]; try discriminate.
  intros H; exists props, label; split; [reflexivity|split; [assumption|]].
  unfold js_or in H.
  destruct (truthy (prop "data" props)) eqn:Ht; [right|left; reflexivity].
  destruct (prop "data" props) as [| | | | |items|]; try discriminate.
  eauto.
Qed.

Lemma mapi_from_Forall {A B : Type} (f : A -> nat -> Completion B)
      (P : A -> Prop) (xs : list A) :
  (forall x i y, f x i = Normal y -> P x) ->
  forall i ys, mapi_from f i xs = Normal ys -> Forall P xs.
Proof.
  intros Hf; induction xs as [|x xs IH]; intros i ys H; [constructor|].
  cbn [mapi_from] in H.
  destruct (f x i) as [y|e] eqn:Hx; cbn [bind] in H; [|discriminate].
  destruct (mapi_from f (S i) xs) as [zs|e] eqn:Hxs; cbn [bind] in H;
    [|discriminate].
  constructor; eauto.
Qed.

(** The formatter returns only on an array, and only when every group is
    an object with a string [type] whose [data] is falsy or an array. *)
Theorem format_results_only_on_groups (results : JsVal) (text : string) :
  format_results toUpperCase results = Normal text ->
  exists groups, results = JArr groups /\ Forall group_shape groups.
Proof.
  unfold format_results.
  destruct results as [| | | | |groups|]; cbn [call_map bind];
    try discriminate.
  unfold mapi.
  destruct (mapi_from (format_group toUpperCase) 0 groups) as [blocks|e] eqn:H;
    cbn [bind]; [|discriminate].
  intros _; exists groups; split; [reflexivity|].
  eapply mapi_from_Forall; [|exact H].
  intros group i block; apply format_group_shape.
Qed.

Lemma blocks_until_error (good rest : list JsVal) (bad : JsVal) (e : Exn) :
  forallb is_group good = true ->
  format_group toUpperCase bad 0 = Throw e ->
  forall i,
    mapi_from (format_group toUpperCase) i (good ++ bad :: rest)%list
    = Throw e.
Proof.
  intros Hgood Hbad; induction good as [|group good IH]; intros i.
  - cbn [app mapi_from].
    change (format_group toUpperCase bad i)
      with (format_group toUpperCase bad 0).
    rewrite Hbad; reflexivity.
  - cbn [forallb] in Hgood; apply andb_true_iff in Hgood as [Hgroup Hgood].
    cbn [app mapi_from].
    rewrite (format_group_block toUpperCase group i Hgroup); cbn [bind].
    rewrite (IH Hgood (S i)); reflexivity.
Qed.

(** All or nothing: when a group cannot be formatted, the call throws the
    error of the first such group, however many groups before and after it
    are in order; no part of the text is returned. *)
Theorem callTool_first_bad_group (axios_get : string -> Completion JsVal)
        (q : string) (body bad : JsVal) (good rest : list JsVal) (e : Exn) :
  q <> "" ->
  axios_get (search_url q) = Normal body ->
  results_of body = Normal (JArr (good ++ bad :: rest)%list) ->
  forallb is_group good = true ->
  format_group toUpperCase bad 0 = Throw e ->
  callTool toUpperCase axios_get (JStr q) = Throw e.
Proof.
  intros Hq Hbody Hres Hgood Hbad.
  unfold callTool; rewrite (truthy_JStr q Hq); cbn [negb ToString bind].
  rewrite Hbody; cbn [bind]; rewrite Hres; cbn [bind Get].
  change (String.eqb "length" "length") with true; cbv iota.
  assert (Hlen : truthy (JNum (Z.of_nat (List.length (good ++ bad :: rest))))
                 = true).
  { rewrite length_app; simpl List.length.
    destruct (List.length good + S (List.length rest)) eqn:Hn; [lia|].
    reflexivity. }
  rewrite Hlen; cbn [negb].
  unfold format_results; cbn [call_map]; unfold mapi.
  rewrite (blocks_until_error good rest bad e Hgood Hbad 0); reflexivity.
Qed.

End FormatterFurther.

Lemma format_results_only_on_groups_witness :
  exists groups, JArr bare_groups = JArr groups /\ Forall group_shape groups.
Proof.
  destruct (format_results toUpperCase_ascii (JArr bare_groups)) as [text|e]
    eqn:H; [|discriminate H].
  exact (format_results_only_on_groups toUpperCase_ascii (JArr bare_groups)
           text H).
Defined.

Lemma callTool_first_bad_group_witness :
  format_group toUpperCase_ascii JNull 0
  = Throw (TypeError "Cannot read properties of null (reading 'type')")
  /\ callTool toUpperCase_ascii
       (upstream_answers
          (JObj [("data",
                  JObj [("Data", JArr (bbc_groups ++ JNull :: bare_groups))])]))
       (JStr "BBC")
     = Throw (TypeError "Cannot read properties of null (reading 'type')").
Proof.
  split; [reflexivity|].
  apply (callTool_first_bad_group toUpperCase_ascii
           (upstream_answers
              (JObj [("data",
                      JObj [("Data",
                             JArr (bbc_groups ++ JNull :: bare_groups))])]))
           "BBC"
           (JObj [("data",
                   JObj [("Data", JArr (bbc_groups ++ JNull :: bare_groups))])])
           JNull bbc_groups bare_groups);
    [discriminate | reflexivity | reflexivity | reflexivity | reflexivity].
Defined.

(** ** The POST route, whatever it is sent *)

Section RouteProperties.

Variable toUpperCase : string -> string.
Variable axios_get : string -> Completion JsVal.

Lemma Get_returns (v : JsVal) (k : string) :
  nullish v = false -> exists x, Get v k = Normal x.
Proof.
  destruct v; simpl; try discriminate; eauto.
Qed.

Lemma Get_throws (v : JsVal) (k : string) :
  nullish v = true -> exists e, Get v k = Throw e.
Proof.
  destruct v; simpl; try discriminate; eauto.
Qed.

(** Every body that is not [null] or [undefined] is answered, and the
    answer is a JSON-RPC envelope under the id of the request: a result
    with status 200, the error -32601 with status 400 or the error -32000
    with status 500.  A body that is [null] or [undefined] is the one case
    in which an exception leaves the handler. *)
Theorem post_mcp_envelope (body : JsVal) :
  (nullish body = true ->
   exists e, post_mcp toUpperCase axios_get body = Unhandled e)
  /\ (nullish body = false ->
      exists id r,
        Get body "id" = Normal id
        /\ post_mcp toUpperCase axios_get body = Responded r
        /\ is_answer id r).
Proof.
  split; intros Hbody.
  - destruct (Get_throws body "method" Hbody) as [e He].
    exists e; unfold post_mcp; rewrite He; reflexivity.
  - destruct (Get_returns body "method" Hbody) as [method Hm].
    destruct (Get_returns body "id" Hbody) as [id Hid].
    destruct (Get_returns body "params" Hbody) as [params Hp].
    exists id; unfold post_mcp; rewrite Hm, Hid, Hp; cbn [bind].
    assert (Hcatch : forall err, is_answer id (post_mcp_catch id err)).
    { intros err; split; [reflexivity|]; right; right; eexists; split; reflexivity. }
    destruct (post_mcp_try toUpperCase axios_get method id params)
      as [r|err] eqn:Htry; [|eauto].
    exists r; split; [reflexivity|split; [reflexivity|]].
    unfold post_mcp_try in Htry.
    destruct (is_method method "initialize").
    { injection Htry as <-; split; [reflexivity|]; left; eexists; split; reflexivity. }
    destruct (is_method method "tools/list").
    { cbn [bind Get] in Htry; injection Htry as <-.
      split; [reflexivity|]; left; eexists; split; reflexivity. }
    destruct (is_method method "tools/call").
    { destruct (GetOpt params "arguments") as [a|e]; cbn [bind] in Htry;
        [|discriminate].
      destruct (GetOpt a "query") as [query|e]; cbn [bind] in Htry;
        [|discriminate].
      destruct (callTool toUpperCase axios_get query) as [result|e];
        cbn [bind] in Htry; [|discriminate].
      injection Htry as <-; split; [reflexivity|]; left; eexists; split; reflexivity. }
    destruct (ToString method) as [m|e]; cbn [bind] in Htry; [|discriminate].
    injection Htry as <-; split; [reflexivity|]; right; left; eexists; split; reflexivity.
Qed.

(** Status 400 is the answer to an unknown method and to nothing else: a
    request answered with it names none of the three methods. *)
Theorem post_mcp_400_only_unknown (body method : JsVal) (r : Response) :
  Get body "method" = Normal method ->
  post_mcp toUpperCase axios_get body = Responded r ->
  status r = 400%Z ->
  is_method method "initialize" = false
  /\ is_method method "tools/list" = false
  /\ is_method method "tools/call" = false.
Proof.
  intros Hm Hpost Hstatus.
  assert (Hbody : nullish body = false)
    by (destruct body; simpl in *; try discriminate; reflexivity).
  destruct (Get_returns body "id" Hbody) as [id Hid].
  destruct (Get_returns body "params" Hbody) as [params Hp].
  unfold post_mcp in Hpost; rewrite Hm, Hid, Hp in Hpost; cbn [bind] in Hpost.
  unfold post_mcp_try in Hpost.
  destruct (is_method method "initialize").
  { injection Hpost as <-; discriminate Hstatus. }
  destruct (is_method method "tools/list").
  { cbn [bind Get] in Hpost; injection Hpost as <-; discriminate Hstatus. }
  destruct (is_method method "tools/call"); [|auto].
  destruct (GetOpt params "arguments") as [a|e]; cbn [bind] in Hpost;
    [|injection Hpost as <-; discriminate Hstatus].
  destruct (GetOpt a "query") as [query|e]; cbn [bind] in Hpost;
    [|injection Hpost as <-; discriminate Hstatus].
  destruct (callTool toUpperCase axios_get query) as [result|e];
    cbn [bind] in Hpost; injection Hpost as <-; discriminate Hstatus.
Qed.


End RouteProperties.

Lemma post_mcp_envelope_witness :
  nullish (JArr [JStr "tools/call"]) = false
  /\ exists id r,
      Get (JArr [JStr "tools/call"]) "id" = Normal id
      /\ post_mcp toUpperCase_ascii (upstream_answers bbc_body)
           (JArr [JStr "tools/call"]) = Responded r
      /\ is_answer id r.
Proof.
  split; [reflexivity|].
  apply (proj2 (post_mcp_envelope toUpperCase_ascii (upstream_answers bbc_body)
                  (JArr [JStr "tools/call"]))).
  reflexivity.
Defined.

Lemma post_mcp_400_only_unknown_witness :
  post_mcp toUpperCase_ascii (upstream_answers bbc_body)
    (rpc_request "ping" (JNum 9) JUndefined)
  = Responded (res_json 400 (rpc_error (JNum 9) (-32601) "Unknown method: ping"))
  /\ is_method (JStr "ping") "initialize" = false
  /\ is_method (JStr "ping") "tools/list" = false
  /\ is_method (JStr "ping") "tools/call" = false.
Proof.
  split; [reflexivity|].
  apply (post_mcp_400_only_unknown toUpperCase_ascii (upstream_answers bbc_body)
           (rpc_request "ping" (JNum 9) JUndefined) (JStr "ping")
           (res_json 400
              (rpc_error (JNum 9) (-32601) "Unknown method: ping")));
    reflexivity.
Defined.


(** ** The streaming route and the user agent *)








Section StreamingProperties.

Variable connect : string -> Completion unit.


(** An agent that is not mobile, and names Chrome or does not name Safari,
    has the channel opened under the address made of the protocol, the host
    and the path of the request; an exception of the SDK is answered with
    status 500 and its message. *)
Theorem get_mcp_opens (req : Request) :
  isMobile (ua_of req) = false ->
  includes (ua_of req) "safari" = false
  \/ includes (ua_of req) "chrome" = true ->
  get_mcp connect req
  = match connect (protocol req ++ "://" ++ header_text (host req)
                   ++ originalUrl req) with
    | Normal _ =>
        SseOpened (protocol req ++ "://" ++ header_text (host req)
                   ++ originalUrl req)
    | Throw e =>
        SseFailed (mkResponse 500 "application/json"
                     (JObj [("error", JStr (exn_message e))]))
    end.
Proof.
  intros Hmobile Hdesktop.
  unfold get_mcp, isSafari; rewrite Hmobile, orb_false_r.
  destruct Hdesktop as [-> | ->]; rewrite ?andb_false_r; reflexivity.
Qed.

(** What the route adds to that of the earlier variant: the fallback and
    the [catch].  Where it opens a channel the earlier route opens the same
    one, and where it answers 500 the earlier route lets the exception
    go. *)
Theorem get_mcp_and_legacy (req : Request) :
  match get_mcp connect req with
  | SseFallback _ => isSafari (ua_of req) || isMobile (ua_of req) = true
  | SseOpened endpoint => Legacy.get_mcp connect req = Normal endpoint
  | SseFailed r =>
      exists e, Legacy.get_mcp connect req = Throw e
                /\ r = res_json 500 (JObj [("error", JStr (exn_message e))])
  end.
Proof.
  unfold get_mcp, Legacy.get_mcp.
  destruct (isSafari (ua_of req) || isMobile (ua_of req)); [reflexivity|].
  destruct (connect (sse_endpoint req)) as [u|e]; cbn [bind]; eauto.
Qed.

End StreamingProperties.


Lemma get_mcp_opens_witness :
  get_mcp (fun _ => Normal tt) chrome_request
  = SseOpened "https://mcp.example.org/mcp"
  /\ get_mcp (fun _ => Throw (Error "stream closed"))
       (mkRequest "http" None None "/mcp")
     = SseFailed (mkResponse 500 "application/json"
                    (JObj [("error", JStr "stream closed")])).
Proof.
  split.
  - apply (get_mcp_opens (fun _ => Normal tt) chrome_request);
      [reflexivity | right; reflexivity].
  - apply (get_mcp_opens (fun _ => Throw (Error "stream closed"))
             (mkRequest "http" None None "/mcp"));
      [reflexivity | left; reflexivity].
Defined.

(** The three discovery documents advertise one endpoint, the address
    under which a request to [/mcp] on the same host has its channel
    opened; the two OpenID and OAuth documents are the same document. *)
Theorem discovery_mcp_endpoint (req : Request) :
  originalUrl req = "/mcp" ->
  Get (openid_configuration req) "mcp_endpoint" = Normal (JStr (sse_endpoint req))
  /\ Get (oauth_authorization_server req) "mcp_endpoint"
     = Normal (JStr (sse_endpoint req))
  /\ Get (openid_configuration_mcp req) "mcp_endpoint"
     = Normal (JStr (sse_endpoint req))
  /\ openid_configuration req = oauth_authorization_server req.
Proof.
  intros Hurl; unfold sse_endpoint; rewrite Hurl.
  assert (H : base req ++ "/mcp"
              = protocol req ++ "://" ++ header_text (host req) ++ "/mcp")
    by (unfold base; rewrite !append_assoc; reflexivity).
  repeat split; cbn -[base append]; rewrite H; reflexivity.
Qed.

Lemma discovery_mcp_endpoint_witness :
  Get (openid_configuration chrome_request) "mcp_endpoint"
  = Normal (JStr "https://mcp.example.org/mcp").
Proof.
  apply (discovery_mcp_endpoint chrome_request); reflexivity.
Defined.

(** ** The earlier variant *)

Section LegacyProperties.

Variable toUpperCase : string -> string.
Variable axios_get : string -> Completion JsVal.

(** The tool handlers of the two variants end alike on every request, up
    to the sentence for an empty result and the message for a missing
    query: the same results text, the same exceptions. *)
Theorem legacy_handler_agrees (req : JsVal) :
  agree_up_to_messages
    (call_tool_handler toUpperCase axios_get req)
    (Legacy.call_tool_handler toUpperCase axios_get req).
Proof.
  unfold call_tool_handler, Legacy.call_tool_handler, callTool.
  destruct (Get req "params") as [params|e]; cbn [bind];
    [|left; reflexivity].
  destruct (Get params "arguments") as [arguments|e]; cbn [bind];
    [|left; reflexivity].
  destruct (GetOpt arguments "query") as [query|e]; cbn [bind];
    [|left; reflexivity].
  destruct (truthy query); cbn [negb]; [|right; split; reflexivity].
  destruct (ToString query) as [q|e]; cbn [bind]; [|left; reflexivity].
  destruct (axios_get (search_url q)) as [data|e]; cbn [bind];
    [|left; reflexivity].
  destruct (results_of data) as [results|e]; cbn [bind]; [|left; reflexivity].
  destruct (Get results "length") as [len|e]; cbn [bind]; [|left; reflexivity].
  destruct (truthy len); cbn [negb].
  - destruct (format_results toUpperCase results) as [formatted|e];
      cbn [bind]; left; reflexivity.
  - right; exists q; split; reflexivity.
Qed.

(** The POST route of the earlier variant answers every body that is not
    [null] or [undefined] with status 200 and a result: the fixed one for
    [initialize], [{ok: true}] for everything else, a [tools/call]
    included, which does not run the tool. *)
Theorem legacy_post_mcp_always_ok (body : JsVal) :
  nullish body = false ->
  exists method id,
    Get body "method" = Normal method
    /\ Get body "id" = Normal id
    /\ Legacy.post_mcp body
       = Responded
           (mkResponse 200 "application/json"
              (JObj [("jsonrpc", JStr "2.0"); ("id", id);
                     ("result",
                      if is_method method "initialize"
                      then Legacy.initialize_result
                      else JObj [("ok", JBool true)])])).
Proof.
  intros Hbody.
  destruct (Get_returns body "method" Hbody) as [method Hm].
  destruct (Get_returns body "id" Hbody) as [id Hid].
  destruct (Get_returns body "params" Hbody) as [params Hp].
  destruct (GetOpt_returns params "protocolVersion") as [v Hv].
  exists method, id; split; [assumption|split; [assumption|]].
  unfold Legacy.post_mcp; rewrite Hm, Hid, Hp; cbn [bind].
  rewrite Hv; cbn [bind].
  destruct (is_method method "initialize"); reflexivity.
Qed.

End LegacyProperties.

Lemma legacy_post_mcp_always_ok_witness :
  exists method id,
    Get (rpc_request "tools/call" (JNum 1) (call_params "search_radio_stations" "BBC"))
        "method" = Normal method
    /\ Get (rpc_request "tools/call" (JNum 1)
              (call_params "search_radio_stations" "BBC")) "id" = Normal id
    /\ Legacy.post_mcp
         (rpc_request "tools/call" (JNum 1)
            (call_params "search_radio_stations" "BBC"))
       = Responded
           (mkResponse 200 "application/json"
              (JObj [("jsonrpc", JStr "2.0"); ("id", id);
                     ("result",
                      if is_method method "initialize"
                      then Legacy.initialize_result
                      else JObj [("ok", JBool true)])])).
Proof.
  apply (legacy_post_mcp_always_ok
           (rpc_request "tools/call" (JNum 1)
              (call_params "search_radio_stations" "BBC"))).
  reflexivity.
Defined.
